(** * The idea board: API handlers over a document store

    A shallow embedding of [main.py] (the FastAPI service of the idea
    board) and of the parts of the document store, of [bson] and of the
    Python runtime its handlers rely on, followed by the properties of the
    handlers. *)

From Stdlib Require Import ZArith NArith String Ascii List Sorted Permutation Lia.
From stdpp Require Import gmap strings list.

Set Warnings "-register-all".
Local Open Scope string_scope.

(** ** Values and records

    A record is a Python [dict] with text keys, as the driver hands it to
    the handlers and as the handlers return it to the transport layer. *)

Inductive value :=
| VNone
| VBool (b : bool)
| VInt (z : Z)
| VStr (s : string)
| VOid (o : N)                      (* bson.ObjectId, its bytes as a number *)
| VDate (t : Z)                     (* datetime, in milliseconds since the epoch *)
| VList (l : list value)
| VDict (d : gmap string value).

Abbreviation doc := (gmap string value).

(** Python truthiness of the values the handlers test with [if] and [or]. *)
Definition str_truthy (s : string) : bool :=
  match s with EmptyString => false | String _ _ => true end.

Definition dict_truthy {V} (d : gmap string V) : bool :=
  match map_to_list d with [] => false | _ :: _ => true end.

Definition truthy (v : value) : bool :=
  match v with
  | VNone => false
  | VBool b => b
  | VInt z => negb (z =? 0)%Z
  | VStr s => str_truthy s
  | VOid _ => true
  | VDate _ => true
  | VList l => match l with [] => false | _ :: _ => true end
  | VDict d => dict_truthy d
  end.

(** [str.startswith]. *)
Definition startswith (s p : string) : bool := String.prefix p s.

(** ** ObjectId

    [ObjectId(s)] takes a text of 24 characters, reads it with
    [bytes.fromhex], and raises [InvalidId] on every other text.
    [bytes.fromhex] reads pairs of hexadecimal digits, of either case, and
    skips ASCII white space between pairs, so 24 hexadecimal digits give the
    usual twelve bytes and a text with white space gives fewer. [str] of an
    ObjectId is two lower-case hexadecimal digits per byte.

    An ObjectId of twelve bytes is the number below 2^96 the bytes spell;
    one of [k < 12] bytes spelling [v] is the number [2^96 * (1 + k) + v],
    apart from all of those. *)

Definition hex_digit (d : N) : ascii :=
  if (d <? 10)%N then ascii_of_N (48 + d) else ascii_of_N (87 + d).

Definition hex_val (c : ascii) : option N :=
  let n := N_of_ascii c in
  if ((48 <=? n) && (n <=? 57))%N then Some (n - 48)%N
  else if ((97 <=? n) && (n <=? 102))%N then Some (n - 87)%N
  else if ((65 <=? n) && (n <=? 70))%N then Some (n - 55)%N
  else None.

(** The [k] low hexadecimal digits of [n], most significant first, put in
    front of [acc]. *)
Fixpoint to_hex (k : nat) (n : N) (acc : string) : string :=
  match k with
  | O => acc
  | S k' => to_hex k' (n / 16)%N (String (hex_digit (n mod 16)%N) acc)
  end.

(** [Py_ISSPACE]: the blank, and the controls from tab to carriage return. *)
Definition is_space (c : ascii) : bool :=
  let n := N_of_ascii c in ((n =? 32) || ((9 <=? n) && (n <=? 13)))%N.

(** [bytes.fromhex(s)]: the number of bytes read (on top of [count]) and the
    number they spell (after [acc]); [None] where it raises. *)
Fixpoint fromhex (s : string) (count : nat) (acc : N) : option (nat * N) :=
  match s with
  | EmptyString => Some (count, acc)
  | String c s' =>
      if is_space c then fromhex s' count acc
      else
        match hex_val c, s' with
        | Some hi, String c' s'' =>
            match hex_val c' with
            | Some lo => fromhex s'' (S count) (256 * acc + 16 * hi + lo)%N
            | None => None
            end
        | _, _ => None
        end
  end.

Definition oid_bound : N := (2 ^ 96)%N.

Definition oid_str (o : N) : string :=
  if (o <? oid_bound)%N then to_hex 24 o ""
  else to_hex (2 * N.to_nat (o / oid_bound - 1)) (o mod oid_bound)%N "".

Definition ObjectId (s : string) : option N :=
  if (String.length s =? 24)%nat then
    match fromhex s 0 0 with
    | Some (k, v) =>
        Some (if (k =? 12)%nat then v else oid_bound * N.of_nat (S k) + v)%N
    | None => None
    end
  else None.

(** ** The runtime the handlers call into

    [datetime.isoformat] and [str] on values that are neither [None] nor an
    ObjectId belong to the Python runtime; the development is parametric in
    them. *)

Record Runtime := {
  isoformat : Z -> string;
  str_builtin : value -> string
}.

Definition py_str (rt : Runtime) (v : value) : string :=
  match v with
  | VNone => "None"
  | VOid o => oid_str o
  | _ => str_builtin rt v
  end.

(** [timedelta(days=n)], in milliseconds. *)
Definition timedelta_days (n : Z) : Z := (n * 86400000)%Z.

(** ** The document store

    A database is a map from collection names to collections; a collection
    keeps its records in insertion order. [next_oid] counts the identifiers
    handed out; an identifier is a 12-byte value, so the count wraps. *)

Record store := {
  db : gmap string (list doc);
  next_oid : N
}.

(** [db[name]]: a collection that was never written to is empty. *)
Definition coll (st : store) (name : string) : list doc :=
  default [] (db st !! name).

(** Query operators of the filters the handlers build. *)
Inductive cond :=
| CEq (v : value)                   (* {field: v} *)
| CGte (v : value).                 (* {field: {"$gte": v}} *)

Abbreviation query := (gmap string cond).

(** Equality of two scalars; arrays and sub-documents are compared by none
    of the filters of this program. *)
Definition scalar_eqb (v w : value) : bool :=
  match v, w with
  | VNone, VNone => true
  | VBool a, VBool b => Bool.eqb a b
  | VInt a, VInt b => (a =? b)%Z
  | VStr a, VStr b => String.eqb a b
  | VOid a, VOid b => (a =? b)%N
  | VDate a, VDate b => (a =? b)%Z
  | _, _ => false
  end.

Definition scalar_geb (w v : value) : bool :=
  match v, w with
  | VInt a, VInt b => (a <=? b)%Z
  | VDate a, VDate b => (a <=? b)%Z
  | _, _ => false
  end.

(** A field satisfies an operator when its value does, or when it is an
    array one of whose elements does; a missing field is null. *)
Definition cond_holds (c : cond) (field : option value) : bool :=
  match c with
  | CEq v =>
      match field with
      | None => scalar_eqb v VNone
      | Some (VList l) => existsb (scalar_eqb v) l
      | Some w => scalar_eqb v w
      end
  | CGte v =>
      match field with
      | None => false
      | Some (VList l) => existsb (fun w => scalar_geb w v) l
      | Some w => scalar_geb w v
      end
  end.

Definition matches (q : query) (d : doc) : bool :=
  forallb (fun kc => cond_holds (snd kc) (d !! fst kc)) (map_to_list q).

Definition find_one (q : query) (c : list doc) : option doc :=
  List.find (matches q) c.

Definition find (q : query) (c : list doc) : list doc :=
  List.filter (matches q) c.

Definition count_documents (q : query) (c : list doc) : nat :=
  length (List.filter (matches q) c).

(** A stable descending sort: [x] moves in front of the first element that
    is not strictly greater. Python's [list.sort(key=..., reverse=True)] is
    that sort; the store's cursor sort is modelled by it too. *)
Section Sort.
Context {A : Type} (gt : A -> A -> bool).

Fixpoint insert_desc (x : A) (l : list A) : list A :=
  match l with
  | [] => [x]
  | y :: l' => if gt y x then y :: insert_desc x l' else x :: y :: l'
  end.

Fixpoint sort_desc (l : list A) : list A :=
  match l with
  | [] => []
  | x :: l' => insert_desc x (sort_desc l')
  end.
End Sort.

(** The creation instant a cursor sorts on; records without a datetime
    there rank below every dated record. *)
Definition created_at_of (d : doc) : option Z :=
  match d !! "created_at" with
  | Some (VDate t) => Some t
  | _ => None
  end.

Definition newer (d e : doc) : bool :=
  match created_at_of d, created_at_of e with
  | Some t, Some u => (u <? t)%Z
  | Some _, None => true
  | None, _ => false
  end.

(** [cursor.sort("created_at", -1)]. *)
Definition sort_created_desc (l : list doc) : list doc := sort_desc newer l.

(** [insert_one]: the record goes to the end of the collection. *)
Definition insert_one (name : string) (d : doc) (st : store) : store :=
  {| db := <[name := (coll st name ++ [d])%list]> (db st);
     next_oid := next_oid st |}.

(** ** Handler computations

    A handler runs against the store and either returns a body (status
    200), raises [HTTPException] with a status code, or lets another
    exception escape (status 500). *)

Inductive exn := InvalidId | AttributeError | IndexError.

Inductive result (A : Type) :=
| Ok (a : A)
| HTTPException (status_code : nat) (detail : string)
| Raise (e : exn).
Arguments Ok {A} a.
Arguments HTTPException {A} status_code detail.
Arguments Raise {A} e.

Definition M (A : Type) : Type := store -> result A * store.

Definition ret {A} (a : A) : M A := fun st => (Ok a, st).

Definition bind {A B} (m : M A) (k : A -> M B) : M B :=
  fun st =>
    match m st with
    | (Ok a, st') => k a st'
    | (HTTPException c d, st') => (HTTPException c d, st')
    | (Raise e, st') => (Raise e, st')
    end.

Definition raise_http {A} (c : nat) (d : string) : M A :=
  fun st => (HTTPException c d, st).

Definition raise {A} (e : exn) : M A := fun st => (Raise e, st).

Definition get_store : M store := fun st => (Ok st, st).

Notation "'let*' x ':=' m 'in' k" := (bind m (fun x => k))
  (at level 10, x name, m at level 100, k at level 200).
Notation "'do' m 'then' k" := (bind m (fun _ => k))
  (at level 10, m at level 100, k at level 200).

Definition status {A} (r : result A) : nat :=
  match r with
  | Ok _ => 200
  | HTTPException c _ => c
  | Raise _ => 500
  end.

(** [for i in range(n): body(i)]. *)
Fixpoint for_range_from (i : nat) (n : nat) (body : nat -> M unit) : M unit :=
  match n with
  | O => ret tt
  | S n' => do body i then for_range_from (S i) n' body
  end.

Definition for_range (n : nat) (body : nat -> M unit) : M unit :=
  for_range_from 0 n body.

(** [ObjectId(s)] inside a handler. *)
Definition to_ObjectId (s : string) : M N :=
  match ObjectId s with
  | Some o => ret o
  | None => raise InvalidId
  end.

(** ** Persistence adapter *)

(** Modelled from the spec: [create_document] of the missing [database]
    module. It takes the fields (a mapping, or a request model already
    dumped to one), stamps the creation time, inserts the record into the
    named collection under a new identifier, and returns that identifier
    as text. *)
Definition stamp (now : Z) (o : N) (data : doc) : doc :=
  <["_id" := VOid o]> (<["created_at" := VDate now]> data).

Definition new_oid (st : store) : N := (next_oid st mod oid_bound)%N.

Definition create_document (now : Z) (name : string) (data : doc) : M string :=
  fun st =>
    let o := new_oid st in
    (Ok (oid_str o),
     {| db := db (insert_one name (stamp now o data) st);
        next_oid := N.succ o |}).

(** Modelled from the spec: [get_documents] of the missing [database]
    module returns every record of the named collection, in store order. *)
Definition get_documents (name : string) : M (list doc) :=
  fun st => (Ok (coll st name), st).

(** ** Request models *)

Definition opt_str (o : option string) : value :=
  match o with Some s => VStr s | None => VNone end.

Module IdeaCreate.
Record t := {
  title : string;
  description : string;
  author : option string;
  link : option string;
  tags : list string
}.
Definition model_dump (p : t) : doc :=
  <["title" := VStr (title p)]>
  (<["description" := VStr (description p)]>
  (<["author" := opt_str (author p)]>
  (<["link" := opt_str (link p)]>
  (<["tags" := VList (map VStr (tags p))]> ∅)))).
End IdeaCreate.

Module CommentCreate.
Record t := {
  idea_id : string;
  author : option string;
  content : string
}.
Definition model_dump (p : t) : doc :=
  <["idea_id" := VStr (idea_id p)]>
  (<["author" := opt_str (author p)]>
  (<["content" := VStr (content p)]> ∅)).
End CommentCreate.

Module VoteCreate.
Record t := {
  idea_id : string;
  voter : option string
}.
End VoteCreate.

(** [request.client]: the caller's address, when the transport knows it. *)
Record Address := { host : string; port : N }.
Record Request := { client : option Address }.

(** ** serialize_doc *)

(** [doc["id"] = str(doc.get("_id"))] *)
Definition set_id (rt : Runtime) (d : doc) : doc :=
  <["id" := VStr (py_str rt (default VNone (d !! "_id")))]> d.

(** [doc.pop("_id", None)] *)
Definition pop_id (d : doc) : doc := delete "_id" d.

(** [if k in doc and isinstance(doc[k], datetime): doc[k] = doc[k].isoformat()] *)
Definition iso_field (rt : Runtime) (k : string) (d : doc) : doc :=
  match d !! k with
  | Some (VDate t) => <[k := VStr (isoformat rt t)]> d
  | _ => d
  end.

(** The function works on the object it is handed: a heap maps references
    to the dicts they denote, every statement of the body updates the dict
    at the reference [r], and [r] itself is returned. *)
Abbreviation heap := (gmap positive doc).

Definition serialize_doc (rt : Runtime) (r : positive) (h : heap) : positive * heap :=
  let h := alter (set_id rt) r h in
  let h := alter pop_id r h in
  let h := fold_left (fun h k => alter (iso_field rt k) r h)
             ["created_at"; "updated_at"] h in
  (r, h).

(** What the dict at the reference holds after the call. The handlers hold
    the only reference to each record they read back from the store, so
    they are written on the contents. *)
Definition serialized (rt : Runtime) (d : doc) : doc :=
  iso_field rt "updated_at" (iso_field rt "created_at" (pop_id (set_id rt d))).

(** ** Seed data *)

Definition seed_ideas : list doc :=
  [ <["title" := VStr "AI-Powered Code Reviewer"]>
    (<["description" := VStr "An agent that reviews PRs and suggests fixes."]>
    (<["author" := VStr "Alex"]>
    (<["tags" := VList [VStr "AI"; VStr "DevTools"]]>
    (<["link" := VStr "https://example.com/code-reviewer"]> ∅))));
    <["title" := VStr "Fitness Buddy Chat"]>
    (<["description" := VStr "A chat app with a fitness coach agent."]>
    (<["author" := VStr "Sam"]>
    (<["tags" := VList [VStr "Health"; VStr "Chatbot"]]>
    (<["link" := VStr "https://example.com/fitness-buddy"]> ∅))));
    <["title" := VStr "Travel Plan Optimizer"]>
    (<["description" := VStr "Smart itinerary planning using constraints."]>
    (<["author" := VStr "Jamie"]>
    (<["tags" := VList [VStr "Travel"; VStr "Planner"]]>
    (<["link" := VStr "https://example.com/travel-optimizer"]> ∅)))) ].

Definition seed_comment (idea_id author content : string) : doc :=
  <["idea_id" := VStr idea_id]>
  (<["author" := VStr author]>
  (<["content" := VStr content]> ∅)).

Definition vote_doc (idea_id voter : string) : doc :=
  <["idea_id" := VStr idea_id]> (<["voter" := VStr voter]> ∅).

(** Decimal text of a number, for [f"user_{i}"]. *)
Fixpoint decimal_fuel (fuel n : nat) (acc : string) : string :=
  match fuel with
  | O => acc
  | S fuel' =>
      let acc' := String (ascii_of_nat (48 + n mod 10)) acc in
      if (n <? 10)%nat then acc' else decimal_fuel fuel' (n / 10) acc'
  end.

Definition decimal (n : nat) : string := decimal_fuel (S n) n "".

Definition user_ (i : nat) : string := "user_" +:+ decimal i.

(** [inserted_ids[i]] *)
Definition list_get (l : list string) (i : nat) : M string :=
  match l !! i with
  | Some x => ret x
  | None => raise IndexError
  end.

(** [for idea in ideas: inserted_ids.append(create_document("idea", idea))];
    the [k]-th write of a start-up is stamped with [clock k]. *)
Fixpoint seed_insert_ideas (clock : nat -> Z) (k : nat) (ideas : list doc)
    (inserted_ids : list string) : M (list string) :=
  match ideas with
  | [] => ret inserted_ids
  | idea :: rest =>
      let* new_id := create_document (clock k) "idea" idea in
      seed_insert_ideas clock (S k) rest (inserted_ids ++ [new_id])%list
  end.

Definition ensure_seed_data (clock : nat -> Z) : M unit :=
  let* st := get_store in
  let count := count_documents ∅ (coll st "idea") in
  if (0 <? count)%nat then ret tt
  else
    let* inserted_ids := seed_insert_ideas clock 0 seed_ideas [] in
    match inserted_ids with
    | [] => ret tt
    | _ :: _ =>
        let* id0 := list_get inserted_ids 0 in
        let* _ := create_document (clock 3) "comment" (seed_comment id0 "Maya" "Love this!") in
        let* id0 := list_get inserted_ids 0 in
        let* _ := create_document (clock 4) "comment" (seed_comment id0 "Ravi" "Would use at work.") in
        let* id1 := list_get inserted_ids 1 in
        let* _ := create_document (clock 5) "comment" (seed_comment id1 "Chris" "Nice concept.") in
        do for_range 5 (fun i =>
             let* id0 := list_get inserted_ids 0 in
             let* _ := create_document (clock (6 + i)) "vote" (vote_doc id0 (user_ i)) in
             ret tt) then
        do for_range 3 (fun i =>
             let* id1 := list_get inserted_ids 1 in
             let* _ := create_document (clock (11 + i)) "vote" (vote_doc id1 (user_ i)) in
             ret tt) then
        for_range 8 (fun i =>
             let* id2 := list_get inserted_ids 2 in
             let* _ := create_document (clock (14 + i)) "vote" (vote_doc id2 (user_ i)) in
             ret tt)
    end.

(** ** Query helpers *)

Definition get_time_filter (now : Z) (period : string) : query :=
  if String.eqb period "week" then
    {[ "created_at" := CGte (VDate (now - timedelta_days 7)) ]}
  else if String.eqb period "month" then
    {[ "created_at" := CGte (VDate (now - timedelta_days 30)) ]}
  else ∅.

(** [a.update(b)]: the entries of [b] win. *)
Definition dict_update {V} (a b : gmap string V) : gmap string V := b ∪ a.

(** [x.get(k, 0)], the sort key of a listed idea. *)
Definition get_int (k : string) (d : doc) : Z :=
  match d !! k with
  | Some (VInt n) => n
  | _ => 0%Z
  end.

Definition key_gt (k : string) (x y : doc) : bool := (get_int k y <? get_int k x)%Z.

(** [if not doc] on what [find_one] returned. *)
Definition found (o : option doc) : bool :=
  match o with
  | Some d => dict_truthy d
  | None => false
  end.

(** ** API endpoints *)

Definition list_time_filter (now : Z) (period : option string) : query :=
  match period with
  | Some p =>
      if String.eqb p "week" || String.eqb p "month"
      then get_time_filter now p else ∅
  | None => ∅
  end.

(** The body of the loop of [list_ideas], for one idea. *)
Definition enrich (rt : Runtime) (time_filter : query) (st : store) (idea : doc) : doc :=
  let idea_id :=
    match idea !! "_id" with
    | Some v => VStr (py_str rt v)
    | None => default VNone (idea !! "id")
    end in
  let vote_filter : query := {[ "idea_id" := CEq idea_id ]} in
  let vote_filter :=
    if dict_truthy time_filter then dict_update vote_filter time_filter
    else vote_filter in
  let votes := count_documents vote_filter (coll st "vote") in
  let comment_filter : query := {[ "idea_id" := CEq idea_id ]} in
  let comment_filter :=
    if dict_truthy time_filter then dict_update comment_filter time_filter
    else comment_filter in
  let comments := count_documents comment_filter (coll st "comment") in
  let doc := serialized rt idea in
  let doc := <["votes" := VInt (Z.of_nat votes)]> doc in
  <["comments" := VInt (Z.of_nat comments)]> doc.

Definition list_ideas (rt : Runtime) (now : Z) (period : option string)
    (sort : string) : M (list doc) :=
  let* ideas := get_documents "idea" in
  let time_filter := list_time_filter now period in
  let* st := get_store in
  let enriched := map (enrich rt time_filter st) ideas in
  if String.eqb sort "comments"
  then ret (sort_desc (key_gt "comments") enriched)
  else ret (sort_desc (key_gt "votes") enriched).

Definition get_idea (rt : Runtime) (idea_id : string) : M doc :=
  let* o := to_ObjectId idea_id in
  let* st := get_store in
  let doc := find_one {[ "_id" := CEq (VOid o) ]} (coll st "idea") in
  match doc with
  | Some d =>
      if negb (dict_truthy d) then raise_http 404 "Idea not found"
      else
        let comments :=
          sort_created_desc
            (find {[ "idea_id" := CEq (VStr idea_id) ]} (coll st "comment")) in
        let comments := map (serialized rt) comments in
        let votes :=
          count_documents {[ "idea_id" := CEq (VStr idea_id) ]} (coll st "vote") in
        let idea := serialized rt d in
        let idea := <["comments_list" := VList (map VDict comments)]> idea in
        ret (<["votes" := VInt (Z.of_nat votes)]> idea)
  | None => raise_http 404 "Idea not found"
  end.

(** The link normalisation of [create_idea]. *)
Definition normalize_link (data : doc) : doc :=
  let link := default VNone (data !! "link") in
  if truthy link then
    match link with
    | VStr l =>
        if negb (startswith l "http://" || startswith l "https://")
        then <["link" := VStr ("https://" +:+ l)]> data
        else data
    | _ => data
    end
  else data.

(** [serialize_doc] on what [find_one] returned; [None] has no [get]. *)
Definition serialize_found (rt : Runtime) (o : option doc) : M doc :=
  match o with
  | Some d => ret (serialized rt d)
  | None => raise AttributeError
  end.

Definition create_idea (rt : Runtime) (now : Z) (payload : IdeaCreate.t) : M doc :=
  let data := IdeaCreate.model_dump payload in
  let data := normalize_link data in
  let* new_id := create_document now "idea" data in
  let* o := to_ObjectId new_id in
  let* st := get_store in
  serialize_found rt (find_one {[ "_id" := CEq (VOid o) ]} (coll st "idea")).

Definition add_comment (rt : Runtime) (now : Z) (payload : CommentCreate.t) : M doc :=
  let* o := to_ObjectId (CommentCreate.idea_id payload) in
  let* st := get_store in
  if negb (found (find_one {[ "_id" := CEq (VOid o) ]} (coll st "idea")))
  then raise_http 404 "Idea not found"
  else
    let* _id := create_document now "comment" (CommentCreate.model_dump payload) in
    let* o' := to_ObjectId _id in
    let* st := get_store in
    serialize_found rt (find_one {[ "_id" := CEq (VOid o') ]} (coll st "comment")).

(** [payload.voter or (request.client.host if request.client else None)] *)
Definition voter_identity (payload : VoteCreate.t) (request : Request) : option string :=
  let fallback :=
    match client request with
    | Some a => Some (host a)
    | None => None
    end in
  match VoteCreate.voter payload with
  | Some v => if str_truthy v then Some v else fallback
  | None => fallback
  end.

Definition add_vote (rt : Runtime) (now : Z) (payload : VoteCreate.t)
    (request : Request) : M doc :=
  let* o := to_ObjectId (VoteCreate.idea_id payload) in
  let* st := get_store in
  if negb (found (find_one {[ "_id" := CEq (VOid o) ]} (coll st "idea")))
  then raise_http 404 "Idea not found"
  else
    match voter_identity payload request with
    | None => raise_http 400 "Missing voter identity"
    | Some v =>
        if negb (str_truthy v) then raise_http 400 "Missing voter identity"
        else
          let existing :=
            find_one (<["idea_id" := CEq (VStr (VoteCreate.idea_id payload))]>
                      {[ "voter" := CEq (VStr v) ]}) (coll st "vote") in
          if found existing then raise_http 409 "Already voted"
          else
            let* _id := create_document now "vote"
                          (vote_doc (VoteCreate.idea_id payload) v) in
            let* o' := to_ObjectId _id in
            let* st := get_store in
            serialize_found rt (find_one {[ "_id" := CEq (VOid o') ]} (coll st "vote"))
    end.

(** [startup_event]: seeding; the index it then asks the store for does not
    change any record. *)
Definition startup_event (clock : nat -> Z) : M unit := ensure_seed_data clock.

(** ** Vocabulary of the properties *)

(** The record's field [k] is [v], in the store's sense of equality. *)
Definition field_eq (k : string) (v : value) (d : doc) : bool :=
  cond_holds (CEq v) (d !! k).

(** The record was created at [start] or later. *)
Definition since (start : Z) (d : doc) : bool :=
  cond_holds (CGte (VDate start)) (d !! "created_at").

(** The text is the identifier of a stored idea. *)
Definition resolves (st : store) (idea_id : string) : bool :=
  match ObjectId idea_id with
  | Some o => existsb (field_eq "_id" (VOid o)) (coll st "idea")
  | None => false
  end.

(** A vote of [voter] for the idea is on record. *)
Definition vote_recorded (st : store) (idea_id voter : string) : bool :=
  existsb (fun d => field_eq "idea_id" (VStr idea_id) d && field_eq "voter" (VStr voter) d)
    (coll st "vote").

(** The window a [period] of the listing stands for. *)
Definition in_period (now : Z) (period : option string) (d : doc) : bool :=
  match period with
  | Some p =>
      if String.eqb p "week" then since (now - 7 * 86400000) d
      else if String.eqb p "month" then since (now - 30 * 86400000) d
      else true
  | None => true
  end.

(** The identifier under which the listing looks up the votes and the
    comments of an idea. *)
Definition listed_id (rt : Runtime) (idea : doc) : value :=
  match idea !! "_id" with
  | Some v => VStr (py_str rt v)
  | None => default VNone (idea !! "id")
  end.

(** The number of records of a collection that satisfy [p]. *)
Definition count (p : doc -> bool) (c : list doc) : nat :=
  length (List.filter p c).

(** The votes and the comments of an idea that fall in the window, and the
    entry the listing shows for the idea. *)
Definition votes_of (rt : Runtime) (now : Z) (period : option string)
    (st : store) (idea : doc) : nat :=
  count (fun d => field_eq "idea_id" (listed_id rt idea) d && in_period now period d)
    (coll st "vote").

Definition comments_of (rt : Runtime) (now : Z) (period : option string)
    (st : store) (idea : doc) : nat :=
  count (fun d => field_eq "idea_id" (listed_id rt idea) d && in_period now period d)
    (coll st "comment").

Definition entry_of (rt : Runtime) (now : Z) (period : option string)
    (st : store) (idea : doc) : doc :=
  <["comments" := VInt (Z.of_nat (comments_of rt now period st idea))]>
  (<["votes" := VInt (Z.of_nat (votes_of rt now period st idea))]>
  (serialized rt idea)).

(** A field as it leaves [serialize_doc]: a datetime as its ISO-8601 text,
    anything else as it was. *)
Definition iso_value (rt : Runtime) (o : option value) : option value :=
  match o with
  | Some (VDate t) => Some (VStr (isoformat rt t))
  | _ => o
  end.

(** The store after one write, and after a run of writes to one
    collection; the records such a run appends, given the identifier the
    first of them gets. *)
Definition next_id (o : N) : N := (N.succ o mod oid_bound)%N.

Definition written (now : Z) (name : string) (data : doc) (st : store) : store :=
  snd (create_document now name data st).

Fixpoint append_all (name : string) (rows : list (Z * doc)) (st : store) : store :=
  match rows with
  | [] => st
  | r :: rows' => append_all name rows' (written (fst r) name (snd r) st)
  end.

Fixpoint stamped (rows : list (Z * doc)) (o : N) : list doc :=
  match rows with
  | [] => []
  | r :: rows' => stamp (fst r) o (snd r) :: stamped rows' (next_id o)
  end.

(** The rows of the three ideas and of the three comments of the seed. *)
Definition idea_rows (clock : nat -> Z) : list (Z * doc) :=
  imap (fun k idea => (clock k, idea)) seed_ideas.

Definition comment_rows (clock : nat -> Z) (i0 i1 : string) : list (Z * doc) :=
  [ (clock 3%nat, seed_comment i0 "Maya" "Love this!");
    (clock 4%nat, seed_comment i0 "Ravi" "Would use at work.");
    (clock 5%nat, seed_comment i1 "Chris" "Nice concept.") ].

(** The rows a vote loop of the seed writes. *)
Definition vote_rows (clock : nat -> Z) (base : nat) (id : string) (i n : nat)
    : list (Z * doc) :=
  map (fun j => (clock (base + j)%nat, vote_doc id (user_ j))) (seq i n).

(** The link carries one of the two schemes [create_idea] knows. *)
Definition has_scheme (l : string) : bool :=
  startswith l "http://" || startswith l "https://".

(** [d] is at least as new as [e]. *)
Definition not_older (d e : doc) : Prop := newer e d = false.

(** ** A runtime for the worked examples

    ISO-8601 text of a naive UTC datetime, as [datetime.isoformat] prints
    it: the fraction of a second appears only when it is not zero. The
    identifiers of the examples are ObjectIds, so [str] is needed on text
    only. *)

Definition pad (width : nat) (n : Z) : string :=
  let s := decimal (Z.to_nat n) in
  String.concat "" (repeat "0" (width - String.length s)) +:+ s.

Definition civil_from_days (z : Z) : Z * Z * Z :=
  let z := (z + 719468)%Z in
  let era := (z / 146097)%Z in
  let doe := (z - era * 146097)%Z in
  let yoe := ((doe - doe / 1460 + doe / 36524 - doe / 146096) / 365)%Z in
  let doy := (doe - (365 * yoe + yoe / 4 - yoe / 100))%Z in
  let mp := ((5 * doy + 2) / 153)%Z in
  let d := (doy - (153 * mp + 2) / 5 + 1)%Z in
  let m := (if mp <? 10 then mp + 3 else mp - 9)%Z in
  let y := (yoe + era * 400 + (if m <=? 2 then 1 else 0))%Z in
  (y, m, d).

Definition iso_utc (t : Z) : string :=
  let '(y, m, d) := civil_from_days (t / 86400000) in
  let r := (t mod 86400000)%Z in
  let ms := (r mod 1000)%Z in
  let secs := (r / 1000)%Z in
  pad 4 y +:+ "-" +:+ pad 2 m +:+ "-" +:+ pad 2 d +:+ "T" +:+
  pad 2 (secs / 3600) +:+ ":" +:+ pad 2 (secs / 60 mod 60) +:+ ":" +:+
  pad 2 (secs mod 60) +:+
  (if (ms =? 0)%Z then "" else "." +:+ pad 3 ms +:+ "000").

Definition example_runtime : Runtime :=
  {| isoformat := iso_utc;
     str_builtin := fun v => match v with VStr s => s | _ => "" end |}.

(** ** A board for the worked examples

    One idea, with one vote cast from the address 10.0.0.1. *)

Definition sample_idea : doc :=
  stamp 1700000000000 1 (<["title" := VStr "Idea"]> (<["description" := VStr "An idea"]> ∅)).

Definition sample_vote : doc :=
  stamp 1700000000500 2 (vote_doc (oid_str 1) "10.0.0.1").

Definition sample_board : store :=
  {| db := <["idea" := [sample_idea]]> (<["vote" := [sample_vote]]> ∅);
     next_oid := 3 |}.

Definition caller (h : string) : Request :=
  {| client := Some {| host := h; port := 50000%N |} |}.

Definition vote_by (i : string) (v : option string) : VoteCreate.t :=
  {| VoteCreate.idea_id := i; VoteCreate.voter := v |}.

Definition comment_on (i : string) : CommentCreate.t :=
  {| CommentCreate.idea_id := i; CommentCreate.author := None;
     CommentCreate.content := "Nice." |}.

Definition idea_with_link (l : option string) : IdeaCreate.t :=
  {| IdeaCreate.title := "Idea"; IdeaCreate.description := "An idea";
     IdeaCreate.author := None; IdeaCreate.link := l; IdeaCreate.tags := [] |}.

(** A caller's dict on the heap, at the reference 1. *)
Definition sample_heap : heap :=
  {[ 1%positive := <["_id" := VOid 255]> (<["title" := VStr "Idea"]> ∅) ]}.

(** A database nothing was written to yet, and a clock for the examples. *)
Definition empty_store : store := {| db := ∅; next_oid := 0 |}.

Definition sample_clock (k : nat) : Z := (1700000000000 + Z.of_nat k)%Z.

(** ** The liveness and diagnostic endpoints *)

Definition root : doc := <["message" := VStr "Vibe Ideas API"]> ∅.

(** What reading [db.name] does: the attribute is missing, has a value, or
    reading it raises. *)
Inductive attribute :=
| NoAttribute
| Attribute (s : string)
| AttributeRaises (msg : string).

(** The database handle as [test_database] uses it: its name, and what
    [list_collection_names()] returns or the text of what it raises. *)
Record Database := {
  db_name : attribute;
  collection_names : string + list string
}.

(** Characters of a text: a byte that continues a UTF-8 sequence belongs to
    the character before it. *)
Definition is_continuation (c : ascii) : bool :=
  let n := N_of_ascii c in ((128 <=? n) && (n <? 192))%N.

Fixpoint char_count (s : string) : nat :=
  match s with
  | EmptyString => 0
  | String c s' => if is_continuation c then char_count s' else S (char_count s')
  end.

(** [s[:n]] *)
Fixpoint take_chars (n : nat) (s : string) : string :=
  match s with
  | EmptyString => EmptyString
  | String c s' =>
      if is_continuation c then String c (take_chars n s')
      else match n with
           | O => EmptyString
           | S n' => String c (take_chars n' s')
           end
  end.

(** [os.getenv(k)] in a condition: set, and not to the empty text. *)
Definition getenv_truthy (env : gmap string string) (k : string) : bool :=
  match env !! k with
  | Some s => str_truthy s
  | None => false
  end.

Definition set_or_not (b : bool) : value :=
  VStr (if b then "✅ Set" else "❌ Not Set").

Definition test_database (db : option Database) (env : gmap string string) : doc :=
  let response : doc :=
    <["backend" := VStr "✅ Running"]>
    (<["database" := VStr "❌ Not Available"]>
    (<["database_url" := VNone]>
    (<["database_name" := VNone]>
    (<["connection_status" := VStr "Not Connected"]>
    (<["collections" := VList []]> ∅))))) in
  let response :=
    match db with
    | Some d =>
        let response := <["database" := VStr "✅ Available"]> response in
        let response := <["database_url" := VStr "✅ Configured"]> response in
        match db_name d with
        | AttributeRaises msg =>
            <["database" := VStr ("❌ Error: " +:+ take_chars 50 msg)]> response
        | a =>
            let response :=
              <["database_name" :=
                  VStr (match a with Attribute s => s | _ => "✅ Connected" end)]>
                response in
            let response := <["connection_status" := VStr "Connected"]> response in
            match collection_names d with
            | inr collections =>
                let response :=
                  <["collections" := VList (map VStr (take 10 collections))]> response in
                <["database" := VStr "✅ Connected & Working"]> response
            | inl msg =>
                <["database" :=
                    VStr ("⚠️  Connected but Error: " +:+ take_chars 50 msg)]> response
            end
        end
    | None => <["database" := VStr "⚠️  Available but not initialized"]> response
    end in
  let response :=
    <["database_url" := set_or_not (getenv_truthy env "DATABASE_URL")]> response in
  <["database_name" := set_or_not (getenv_truthy env "DATABASE_NAME")]> response.

(** ** Vocabulary of the further properties *)

(** The collection names the diagnostic reports. *)
Definition listed_names (db : option Database) : list string :=
  match db with
  | Some d =>
      match db_name d, collection_names d with
      | AttributeRaises _, _ => []
      | _, inr names => take 10 names
      | _, inl _ => []
      end
  | None => []
  end.


(** The pair a vote record stands for. *)
Definition vote_key (d : doc) : option value * option value :=
  (d !! "idea_id", d !! "voter").

(** No two vote records are of the same idea and voter. *)
Definition votes_unique (st : store) : Prop :=
  NoDup (map vote_key (coll st "vote")).

(** No record of the collection has the identifier the next write gets. *)
Definition id_free (st : store) (name : string) : bool :=
  negb (existsb (field_eq "_id" (VOid (new_oid st))) (coll st name)).

(** Every collection of [st'] starts with what it held in [st]. *)
Definition only_appends (st st' : store) : Prop :=
  forall name, coll st name `prefix_of` coll st' name.

(** The record is an idea under the identifier [o]. *)
Definition idea_with_id (st : store) (o : N) (idea : doc) : Prop :=
  idea ∈ coll st "idea" /\ idea !! "_id" = Some (VOid o) /\ (o < oid_bound)%N.

(** A board whose idea has the identifier 255, text 0...0ff. *)
Definition hex_idea : doc := stamp 1700000000000 255 (<["title" := VStr "Idea"]> ∅).

Definition hex_board : store :=
  {| db := <["idea" := [hex_idea]]> ∅; next_oid := 256 |}.

Definition upper_id : string := "0000000000000000000000FF".

Definition sample_database : Database :=
  {| db_name := Attribute "ideas";
     collection_names := inr ["a"; "b"; "c"; "d"; "e"; "f"; "g"; "h"; "i"; "j"; "k"; "l"] |}.

Definition failing_database : Database :=
  {| db_name := Attribute "ideas";
     collection_names :=
       inl "connection refused: the server at localhost:27017 actively refused it" |}.

(** A board with two ideas, the second one with two votes, and with three
    comments on the first idea, stored neither oldest nor newest first. *)
Definition first_idea : doc := stamp 1700000000000 1 (<["title" := VStr "First"]> ∅).
Definition second_idea : doc := stamp 1700000000100 2 (<["title" := VStr "Second"]> ∅).

Definition busy_board : store :=
  {| db :=
       <["idea" := [first_idea; second_idea]]>
       (<["vote" := [ stamp 1700000000200 3 (vote_doc (oid_str 2) "ann");
                      stamp 1700000000300 4 (vote_doc (oid_str 2) "bob") ]]>
       (<["comment" := [ stamp 1700000002000 5 (seed_comment (oid_str 1) "ann" "mid");
                         stamp 1700000003000 6 (seed_comment (oid_str 1) "bob" "new");
                         stamp 1700000001000 7 (seed_comment (oid_str 1) "cy" "old");
                         stamp 1700000004000 8 (seed_comment (oid_str 2) "di" "other") ]]>
        ∅));
     next_oid := 9 |}.

(** The content a record of [comments_list] shows. *)
Definition content_of (v : value) : option value :=
  match v with
  | VDict d => d !! "content"
  | _ => None
  end.

(** ** ObjectId texts *)

Lemma hex_val_digit (d : N) : (d < 16)%N -> hex_val (hex_digit d) = Some d.
Proof.
  intros H. destruct d as [|p]; [reflexivity|].
  do 4 (destruct p as [p|p|]; try reflexivity); lia.
Qed.

Lemma length_to_hex k n acc :
  String.length (to_hex k n acc) = (k + String.length acc)%nat.
Proof.
  revert n acc. induction k as [|k IH]; intros n acc; simpl; [done|].
  rewrite IH. simpl. lia.
Qed.

Lemma is_space_digit (d : N) : (d < 16)%N -> is_space (hex_digit d) = false.
Proof.
  intros H. destruct d as [|p]; [reflexivity|].
  do 4 (destruct p as [p|p|]; try reflexivity); lia.
Qed.

Lemma fromhex_to_hex k n rest c a :
  fromhex (to_hex (2 * k) n rest) c a =
  fromhex rest (c + k) (a * 256 ^ N.of_nat k + n mod 256 ^ N.of_nat k)%N.
Proof.
  revert n rest c a. induction k as [|k IH]; intros n rest c a.
  - simpl to_hex. rewrite N.mod_1_r. f_equal; [lia|].
    change (256 ^ N.of_nat 0)%N with 1%N. lia.
  - replace (2 * S k)%nat with (S (S (2 * k))) by lia.
    cbn [to_hex]. rewrite IH. cbn [fromhex].
    rewrite is_space_digit by (apply N.mod_lt; lia).
    rewrite !hex_val_digit by (apply N.mod_lt; lia).
    f_equal; [lia|].
    rewrite Nat2N.inj_succ, N.pow_succ_r'.
    rewrite (N.Div0.mod_mul_r n 256 (256 ^ N.of_nat k)).
    rewrite N.Div0.div_div. change (16 * 16)%N with 256%N.
    replace (n mod 256)%N with (n mod 16 + 16 * ((n / 16) mod 16))%N
      by (rewrite <- N.Div0.mod_mul_r; reflexivity).
    lia.
Qed.

Lemma oid_str_twelve (o : N) : (o < oid_bound)%N -> oid_str o = to_hex 24 o "".
Proof. intros H. unfold oid_str. apply N.ltb_lt in H. by rewrite H. Qed.

Lemma ObjectId_oid_str (o : N) : (o < oid_bound)%N -> ObjectId (oid_str o) = Some o.
Proof.
  intros H. rewrite oid_str_twelve by done. unfold ObjectId.
  rewrite length_to_hex. simpl Nat.eqb. cbv iota.
  change 24%nat with (2 * 12)%nat. rewrite fromhex_to_hex. simpl fromhex.
  change (256 ^ N.of_nat 12)%N with oid_bound.
  rewrite N.mod_small by done. by rewrite N.add_0_l.
Qed.

Lemma new_oid_lt st : (new_oid st < oid_bound)%N.
Proof. unfold new_oid. apply N.mod_lt. unfold oid_bound. lia. Qed.

Lemma oid_str_inj (a b : N) :
  (a < oid_bound)%N -> (b < oid_bound)%N -> oid_str a = oid_str b -> a = b.
Proof.
  intros Ha Hb E. apply ObjectId_oid_str in Ha, Hb. congruence.
Qed.
(** ** Queries *)

Lemma matches_true (q : query) (d : doc) :
  matches q d = true <->
  forall k c, q !! k = Some c -> cond_holds c (d !! k) = true.
Proof.
  unfold matches. rewrite forallb_forall. split.
  - intros H k c Hk. apply (H (k, c)).
    apply list_elem_of_In, elem_of_map_to_list. exact Hk.
  - intros H [k c] Hin. simpl. apply H.
    apply elem_of_map_to_list, list_elem_of_In. exact Hin.
Qed.

Lemma matches_empty (d : doc) : matches ∅ d = true.
Proof. apply matches_true. intros k c Hk. by rewrite lookup_empty in Hk. Qed.

Lemma matches_insert (q : query) k c (d : doc) :
  q !! k = None ->
  matches (<[k := c]> q) d = cond_holds c (d !! k) && matches q d.
Proof.
  intros Hk. apply eq_true_iff_eq.
  rewrite andb_true_iff, !matches_true. split.
  - intros H. split.
    + apply H. by rewrite lookup_insert_eq.
    + intros k' c' Hk'. apply H. rewrite lookup_insert_ne; [done|].
      intros ->. congruence.
  - intros [H1 H2] k' c'. rewrite lookup_insert. case_decide as E.
    + intros [= <-]. by subst k'.
    + apply H2.
Qed.

Lemma matches_singleton k c (d : doc) :
  matches {[ k := c ]} d = cond_holds c (d !! k).
Proof.
  rewrite <- insert_empty, matches_insert by apply lookup_empty.
  rewrite matches_empty. apply andb_true_r.
Qed.

Lemma dict_truthy_empty {V} : dict_truthy (∅ : gmap string V) = false.
Proof. unfold dict_truthy. by rewrite map_to_list_empty. Qed.

Lemma dict_truthy_lookup {V} (d : gmap string V) k v :
  d !! k = Some v -> dict_truthy d = true.
Proof.
  intros H. unfold dict_truthy.
  destruct (map_to_list d) as [|x l] eqn:E; [|done].
  apply map_to_list_empty_iff in E. subst d. by rewrite lookup_empty in H.
Qed.

Lemma field_eq_oid_present o (d : doc) :
  field_eq "_id" (VOid o) d = true -> dict_truthy d = true.
Proof.
  unfold field_eq. destruct (d !! "_id") as [v|] eqn:E.
  - intros _. by eapply dict_truthy_lookup.
  - simpl. discriminate.
Qed.

Lemma find_one_singleton k c (l : list doc) :
  find_one {[ k := c ]} l = List.find (fun d => cond_holds c (d !! k)) l.
Proof.
  unfold find_one. induction l as [|d l IH]; simpl; [done|].
  by rewrite matches_singleton, IH.
Qed.

Lemma filter_singleton k c (l : list doc) :
  List.filter (matches {[ k := c ]}) l = List.filter (fun d => cond_holds c (d !! k)) l.
Proof. apply List.filter_ext. intros d. apply matches_singleton. Qed.

Lemma find_pointwise {A} (p q : A -> bool) (l : list A) :
  (forall x, p x = q x) -> List.find p l = List.find q l.
Proof.
  intros H. induction l as [|x l IH]; simpl; [done|]. by rewrite H, IH.
Qed.

Lemma find_existsb {A} (p : A -> bool) (l : list A) :
  existsb p l = match List.find p l with Some _ => true | None => false end.
Proof. induction l as [|x l IH]; simpl; [done|]. by destruct (p x). Qed.

(** Looking an idea up by identifier finds a record exactly when the
    identifier resolves. *)
Lemma found_by_id (st : store) (o : N) :
  found (find_one {[ "_id" := CEq (VOid o) ]} (coll st "idea")) =
  existsb (field_eq "_id" (VOid o)) (coll st "idea").
Proof.
  rewrite find_one_singleton, find_existsb. unfold found.
  destruct (List.find _ _) as [d|] eqn:E; [|done].
  apply List.find_some in E as [_ E]. by apply (field_eq_oid_present o).
Qed.

Lemma resolves_found (st : store) (i : string) (o : N) :
  ObjectId i = Some o ->
  found (find_one {[ "_id" := CEq (VOid o) ]} (coll st "idea")) = resolves st i.
Proof. intros H. unfold resolves. rewrite H. apply found_by_id. Qed.

(** ** Writes *)

Lemma coll_insert_one name d st name' :
  coll (insert_one name d st) name' =
  if decide (name = name') then (coll st name ++ [d])%list else coll st name'.
Proof.
  unfold insert_one, coll at 1. simpl. rewrite lookup_insert.
  by case_decide.
Qed.

Lemma create_document_run now name data st :
  create_document now name data st =
  (Ok (oid_str (new_oid st)),
   {| db := db (insert_one name (stamp now (new_oid st) data) st);
      next_oid := N.succ (new_oid st) |}).
Proof. reflexivity. Qed.

Lemma coll_create now name data st name' :
  coll (snd (create_document now name data st)) name' =
  if decide (name = name')
  then (coll st name ++ [stamp now (new_oid st) data])%list
  else coll st name'.
Proof. rewrite <- coll_insert_one. reflexivity. Qed.

Lemma stamp_id now o data : stamp now o data !! "_id" = Some (VOid o).
Proof. unfold stamp. by rewrite lookup_insert_eq. Qed.

Lemma stamp_created now o data : stamp now o data !! "created_at" = Some (VDate now).
Proof. unfold stamp. rewrite lookup_insert_ne by done. by rewrite lookup_insert_eq. Qed.

Lemma stamp_other now o data k :
  k <> "_id" -> k <> "created_at" -> stamp now o data !! k = data !! k.
Proof. intros H1 H2. unfold stamp. by rewrite !lookup_insert_ne. Qed.

Lemma find_app_last {A} (p : A -> bool) (l : list A) (x : A) :
  p x = true -> exists y, List.find p (l ++ [x])%list = Some y /\ p y = true.
Proof.
  intros Hx. induction l as [|z l IH]; simpl.
  - rewrite Hx. eauto.
  - destruct (p z) eqn:E; eauto.
Qed.

(** The record just written is found again under the identifier returned. *)
Lemma find_written now name data st :
  exists d,
    find_one {[ "_id" := CEq (VOid (new_oid st)) ]}
      (coll (snd (create_document now name data st)) name) = Some d.
Proof.
  rewrite coll_create, decide_True by done. rewrite find_one_singleton.
  destruct (find_app_last (fun d : doc => cond_holds (CEq (VOid (new_oid st))) (d !! "_id"))
              (coll st name) (stamp now (new_oid st) data)) as (y & Hy & _).
  - rewrite stamp_id. simpl. apply N.eqb_refl.
  - eauto.
Qed.

(** ** The stable descending sort *)

Section SortFacts.
Context {A : Type} (gt : A -> A -> bool).

Lemma insert_desc_perm x l : Permutation (insert_desc gt x l) (x :: l).
Proof.
  induction l as [|y l IH]; simpl; [done|].
  destruct (gt y x); [|done].
  rewrite IH. apply perm_swap.
Qed.

Lemma sort_desc_perm l : Permutation (sort_desc gt l) l.
Proof.
  induction l as [|x l IH]; simpl; [done|].
  rewrite insert_desc_perm. by constructor.
Qed.

Lemma sort_desc_length l : length (sort_desc gt l) = length l.
Proof. apply Permutation_length, sort_desc_perm. Qed.

(** Stability: the elements of a class that the order does not separate
    keep the order they had. *)
Lemma insert_desc_filter (p : A -> bool) x l :
  (forall y, In y l -> p x = true -> p y = true -> gt y x = false) ->
  List.filter p (insert_desc gt x l) = List.filter p (x :: l).
Proof.
  induction l as [|y l IH]; intros H; [done|].
  cbn [insert_desc]. destruct (gt y x) eqn:E; [|done].
  cbn [List.filter]. rewrite IH by (intros; apply H; simpl; auto).
  cbn [List.filter].
  destruct (p x) eqn:Ex, (p y) eqn:Ey; try done.
  rewrite H in E; simpl; auto. discriminate.
Qed.

Lemma sort_desc_stable (p : A -> bool) l :
  (forall x y, p x = true -> p y = true -> gt y x = false) ->
  List.filter p (sort_desc gt l) = List.filter p l.
Proof.
  intros H. induction l as [|x l IH]; [done|].
  cbn [sort_desc]. rewrite insert_desc_filter by (intros; by apply H).
  cbn [List.filter]. by rewrite IH.
Qed.

Hypothesis gt_asym : forall x y, gt x y = true -> gt y x = false.
Hypothesis ge_trans :
  forall x y z, gt y x = false -> gt z y = false -> gt z x = false.

Lemma insert_desc_sorted x l :
  StronglySorted (fun a b => gt b a = false) l ->
  StronglySorted (fun a b => gt b a = false) (insert_desc gt x l).
Proof.
  induction 1 as [|y l Hs IH Hy]; simpl.
  - repeat constructor.
  - destruct (gt y x) eqn:E.
    + constructor; [exact IH|].
      rewrite Forall_forall. intros z Hz.
      rewrite insert_desc_perm in Hz.
      apply elem_of_cons in Hz as [->|Hz]; [by apply gt_asym|].
      rewrite Forall_forall in Hy. by apply Hy.
    + constructor; [by constructor|].
      constructor; [exact E|].
      eapply Forall_impl; [exact Hy|]. intros z Hz. simpl in Hz.
      by apply (ge_trans x y z).
Qed.

Lemma sort_desc_sorted l :
  StronglySorted (fun a b => gt b a = false) (sort_desc gt l).
Proof.
  induction l as [|x l IH]; simpl; [constructor|].
  by apply insert_desc_sorted.
Qed.
End SortFacts.

Lemma StronglySorted_weaken {A} (R S : A -> A -> Prop) (l : list A) :
  (forall x y, R x y -> S x y) -> StronglySorted R l -> StronglySorted S l.
Proof.
  intros H. induction 1 as [|x l Hs IH Hx]; constructor; [done|].
  eapply Forall_impl; [exact Hx|]. auto.
Qed.

Lemma sort_by_key_sorted (k : string) (l : list doc) :
  StronglySorted (fun x y => (get_int k y <= get_int k x)%Z)
    (sort_desc (key_gt k) l).
Proof.
  eapply StronglySorted_weaken; [|apply sort_desc_sorted].
  - intros x y H. unfold key_gt in H. simpl in H. lia.
  - intros x y. unfold key_gt. lia.
  - intros x y z. unfold key_gt. lia.
Qed.

Lemma sort_by_key_stable (k : string) (n : Z) (l : list doc) :
  List.filter (fun x => (get_int k x =? n)%Z) (sort_desc (key_gt k) l) =
  List.filter (fun x => (get_int k x =? n)%Z) l.
Proof.
  apply sort_desc_stable. intros x y Hx Hy. unfold key_gt. lia.
Qed.

Lemma sort_created_sorted (l : list doc) :
  StronglySorted not_older (sort_created_desc l).
Proof.
  unfold sort_created_desc, not_older. apply sort_desc_sorted.
  - intros x y. unfold newer.
    destruct (created_at_of x), (created_at_of y); try done. lia.
  - intros x y z. unfold newer.
    destruct (created_at_of x), (created_at_of y), (created_at_of z); try done. lia.
Qed.

(** Among dated records, newest first means instants that do not grow. *)
Lemma not_older_dated (d e : doc) t u :
  d !! "created_at" = Some (VDate t) -> e !! "created_at" = Some (VDate u) ->
  not_older d e -> (u <= t)%Z.
Proof.
  unfold not_older, newer, created_at_of. intros -> ->. lia.
Qed.

(** ** serialize_doc *)

Lemma iso_field_lookup rt k (d : doc) k' :
  iso_field rt k d !! k' =
  if decide (k = k') then iso_value rt (d !! k) else d !! k'.
Proof.
  unfold iso_field, iso_value. case_decide as E.
  - subst k'. destruct (d !! k) as [[]|] eqn:Ek; try done.
    by rewrite lookup_insert_eq.
  - destruct (d !! k) as [[]|] eqn:Ek; try done.
    by rewrite lookup_insert_ne.
Qed.

Lemma serialized_id rt (d : doc) :
  serialized rt d !! "id" = Some (VStr (py_str rt (default VNone (d !! "_id")))).
Proof.
  unfold serialized. rewrite !iso_field_lookup, !decide_False by done.
  unfold pop_id, set_id. rewrite lookup_delete_ne by done.
  by rewrite lookup_insert_eq.
Qed.

Lemma serialized_no__id rt (d : doc) : serialized rt d !! "_id" = None.
Proof.
  unfold serialized. rewrite !iso_field_lookup, !decide_False by done.
  unfold pop_id. by rewrite lookup_delete_eq.
Qed.

Lemma serialized_created rt (d : doc) :
  serialized rt d !! "created_at" = iso_value rt (d !! "created_at").
Proof.
  unfold serialized. rewrite !iso_field_lookup.
  rewrite decide_False, decide_True by done.
  unfold pop_id, set_id. rewrite lookup_delete_ne by done.
  by rewrite lookup_insert_ne.
Qed.

Lemma serialized_updated rt (d : doc) :
  serialized rt d !! "updated_at" = iso_value rt (d !! "updated_at").
Proof.
  unfold serialized. rewrite !iso_field_lookup.
  rewrite decide_True, decide_False by done.
  unfold pop_id, set_id. rewrite lookup_delete_ne by done.
  by rewrite lookup_insert_ne.
Qed.

Lemma serialized_other rt (d : doc) k :
  k <> "id" -> k <> "_id" -> k <> "created_at" -> k <> "updated_at" ->
  serialized rt d !! k = d !! k.
Proof.
  intros H1 H2 H3 H4. unfold serialized.
  rewrite !iso_field_lookup, !decide_False by done.
  unfold pop_id, set_id. rewrite lookup_delete_ne by done.
  by rewrite lookup_insert_ne.
Qed.

Lemma serialize_doc_alter rt r (h : heap) :
  serialize_doc rt r h = (r, alter (serialized rt) r h).
Proof.
  unfold serialize_doc, serialized. simpl. f_equal.
  by rewrite !alter_alter_eq.
Qed.

(** ** Running a handler *)

Lemma to_ObjectId_new st' st :
  to_ObjectId (oid_str (new_oid st)) st' = (Ok (new_oid st), st').
Proof.
  unfold to_ObjectId. by rewrite ObjectId_oid_str by apply new_oid_lt.
Qed.

(** After a write the record is read back and serialised: the handler
    returns a body. *)
Lemma read_back rt now name data st :
  exists d,
    find_one {[ "_id" := CEq (VOid (new_oid st)) ]}
      (coll (snd (create_document now name data st)) name) = Some d /\
    (let* _id := create_document now name data in
     let* o := to_ObjectId _id in
     let* st := get_store in
     serialize_found rt (find_one {[ "_id" := CEq (VOid o) ]} (coll st name))) st
    = (Ok (serialized rt d), snd (create_document now name data st)).
Proof.
  destruct (find_written now name data st) as [d Hd]. exists d. split; [done|].
  assert (create_document now name data st =
          (Ok (oid_str (new_oid st)), snd (create_document now name data st)))
    as E by reflexivity.
  revert Hd E. generalize (snd (create_document now name data st)) as st1.
  intros st1 Hd E.
  unfold bind at 1. rewrite E.
  unfold bind at 1. rewrite to_ObjectId_new.
  unfold bind, get_store. by rewrite Hd.
Qed.

Lemma existing_found (st : store) (i v : string) :
  found (find_one (<["idea_id" := CEq (VStr i)]> {[ "voter" := CEq (VStr v) ]})
           (coll st "vote")) = vote_recorded st i v.
Proof.
  unfold vote_recorded, find_one. rewrite find_existsb.
  rewrite (find_pointwise (matches _)
    (fun d => field_eq "idea_id" (VStr i) d && field_eq "voter" (VStr v) d)).
  2:{ intros d. rewrite matches_insert by done. by rewrite matches_singleton. }
  unfold found. destruct (List.find _ _) as [d|] eqn:E; [|done].
  apply List.find_some in E as [_ E]. apply andb_true_iff in E as [E _].
  unfold field_eq in E. destruct (d !! "idea_id") as [w|] eqn:Ew; [|done].
  by eapply dict_truthy_lookup.
Qed.

Lemma add_vote_run rt now p req st o :
  ObjectId (VoteCreate.idea_id p) = Some o ->
  add_vote rt now p req st =
  if negb (resolves st (VoteCreate.idea_id p))
  then (HTTPException 404 "Idea not found", st)
  else
    match voter_identity p req with
    | None => (HTTPException 400 "Missing voter identity", st)
    | Some v =>
        if negb (str_truthy v) then (HTTPException 400 "Missing voter identity", st)
        else if vote_recorded st (VoteCreate.idea_id p) v
        then (HTTPException 409 "Already voted", st)
        else
          (let* _id := create_document now "vote" (vote_doc (VoteCreate.idea_id p) v) in
           let* o' := to_ObjectId _id in
           let* st := get_store in
           serialize_found rt (find_one {[ "_id" := CEq (VOid o') ]} (coll st "vote"))) st
    end.
Proof.
  intros Ho. unfold add_vote. unfold bind at 1. unfold to_ObjectId at 1.
  rewrite Ho. unfold ret at 1. unfold bind at 1. unfold get_store at 1.
  rewrite (resolves_found st _ o Ho).
  destruct (negb (resolves st _)); [done|].
  destruct (voter_identity p req) as [v|]; [|done].
  destruct (negb (str_truthy v)); [done|].
  rewrite existing_found. by destruct (vote_recorded st _ v).
Qed.

Lemma add_comment_run rt now p st o :
  ObjectId (CommentCreate.idea_id p) = Some o ->
  add_comment rt now p st =
  if negb (resolves st (CommentCreate.idea_id p))
  then (HTTPException 404 "Idea not found", st)
  else
    (let* _id := create_document now "comment" (CommentCreate.model_dump p) in
     let* o' := to_ObjectId _id in
     let* st := get_store in
     serialize_found rt (find_one {[ "_id" := CEq (VOid o') ]} (coll st "comment"))) st.
Proof.
  intros Ho. unfold add_comment. unfold bind at 1. unfold to_ObjectId at 1.
  rewrite Ho. unfold ret at 1. unfold bind at 1. unfold get_store at 1.
  rewrite (resolves_found st _ o Ho).
  by destruct (negb (resolves st _)).
Qed.

Lemma resolves_well_formed st i : resolves st i = true -> is_Some (ObjectId i).
Proof. unfold resolves. destruct (ObjectId i); [eauto|done]. Qed.

Lemma resolves_same_ideas st st' i :
  coll st' "idea" = coll st "idea" -> resolves st' i = resolves st i.
Proof. intros H. unfold resolves. by rewrite H. Qed.

Lemma str_truthy_nonempty (s : string) : s <> "" -> str_truthy s = true.
Proof. by destruct s. Qed.

Lemma voter_identity_supplied p req v :
  VoteCreate.voter p = Some v -> v <> "" -> voter_identity p req = Some v.
Proof.
  intros Hv Hne. unfold voter_identity. rewrite Hv.
  by rewrite str_truthy_nonempty.
Qed.

Lemma vote_doc_idea i v : vote_doc i v !! "idea_id" = Some (VStr i).
Proof. unfold vote_doc. by rewrite lookup_insert_eq. Qed.

Lemma vote_doc_voter i v : vote_doc i v !! "voter" = Some (VStr v).
Proof. unfold vote_doc. rewrite lookup_insert_ne by done. by rewrite lookup_insert_eq. Qed.

Lemma field_eq_str k s (d : doc) : d !! k = Some (VStr s) -> field_eq k (VStr s) d = true.
Proof. intros H. unfold field_eq. rewrite H. simpl. apply String.eqb_refl. Qed.

(** What a vote that goes through does to the store. *)
Lemma add_vote_fresh rt now p req st v :
  resolves st (VoteCreate.idea_id p) = true ->
  voter_identity p req = Some v -> v <> "" ->
  vote_recorded st (VoteCreate.idea_id p) v = false ->
  exists body st1 d,
    add_vote rt now p req st = (Ok body, st1) /\
    coll st1 "vote" = (coll st "vote" ++ [d])%list /\
    d !! "idea_id" = Some (VStr (VoteCreate.idea_id p)) /\
    d !! "voter" = Some (VStr v) /\
    (forall name, name <> "vote" -> coll st1 name = coll st name).
Proof.
  intros Hr Hv Hne Hnew.
  destruct (resolves_well_formed _ _ Hr) as [o Ho].
  rewrite (add_vote_run rt now p req st o Ho), Hr, Hv, Hnew.
  rewrite str_truthy_nonempty by done. simpl negb. cbv iota.
  destruct (read_back rt now "vote" (vote_doc (VoteCreate.idea_id p) v) st)
    as (d' & _ & ->).
  eexists _, _, _. split; [reflexivity|].
  split; [|split; [|split]].
  - rewrite coll_create. by rewrite decide_True.
  - rewrite stamp_other by done. apply vote_doc_idea.
  - rewrite stamp_other by done. apply vote_doc_voter.
  - intros name Hn. rewrite coll_create. by rewrite decide_False.
Qed.

Lemma add_vote_again rt now p req st v :
  resolves st (VoteCreate.idea_id p) = true ->
  voter_identity p req = Some v -> v <> "" ->
  vote_recorded st (VoteCreate.idea_id p) v = true ->
  add_vote rt now p req st = (HTTPException 409 "Already voted", st).
Proof.
  intros Hr Hv Hne Hrec.
  destruct (resolves_well_formed _ _ Hr) as [o Ho].
  rewrite (add_vote_run rt now p req st o Ho), Hr, Hv, Hrec.
  by rewrite str_truthy_nonempty.
Qed.

Lemma vote_recorded_last st i v (d : doc) :
  d !! "idea_id" = Some (VStr i) -> d !! "voter" = Some (VStr v) ->
  forall st1, coll st1 "vote" = (coll st "vote" ++ [d])%list ->
  vote_recorded st1 i v = true.
Proof.
  intros Hi Hv st1 E. unfold vote_recorded. rewrite E, existsb_app.
  simpl. rewrite !field_eq_str by done. simpl. apply orb_true_r.
Qed.

(** C1 (as amended): for an idea on the board and a supplied voter that is
    not the empty text and has no vote for the idea on record, the first
    POST /api/votes returns 200 and appends exactly one vote record, of that
    idea and voter, leaving the other collections alone; the second call
    with the same pair returns 409 and leaves the store as it was. *)
Theorem add_vote_twice rt now now' p req st v :
  resolves st (VoteCreate.idea_id p) = true ->
  VoteCreate.voter p = Some v -> v <> "" ->
  vote_recorded st (VoteCreate.idea_id p) v = false ->
  exists body st1 d,
    add_vote rt now p req st = (Ok body, st1) /\
    status (fst (add_vote rt now p req st)) = 200 /\
    coll st1 "vote" = (coll st "vote" ++ [d])%list /\
    d !! "idea_id" = Some (VStr (VoteCreate.idea_id p)) /\
    d !! "voter" = Some (VStr v) /\
    (forall name, name <> "vote" -> coll st1 name = coll st name) /\
    add_vote rt now' p req st1 = (HTTPException 409 "Already voted", st1) /\
    status (fst (add_vote rt now' p req st1)) = 409.
Proof.
  intros Hr Hv Hne Hnew.
  pose proof (voter_identity_supplied p req v Hv Hne) as Hid.
  destruct (add_vote_fresh rt now p req st v Hr Hid Hne Hnew)
    as (body & st1 & d & E & Hc & Hi & Hvo & Hoth).
  assert (add_vote rt now' p req st1 = (HTTPException 409 "Already voted", st1)) as E2.
  { apply (add_vote_again rt now' p req st1 v); try done.
    - rewrite (resolves_same_ideas st st1); [done|]. by apply Hoth.
    - by apply (vote_recorded_last st _ _ d). }
  exists body, st1, d. rewrite E, E2. by repeat split.
Qed.

Example add_vote_twice_witness :
  exists body st1 d,
    add_vote example_runtime 1700000001000 (vote_by (oid_str 1) (Some "ann"))
      (caller "10.0.0.1") sample_board = (Ok body, st1) /\
    status (fst (add_vote example_runtime 1700000001000
                   (vote_by (oid_str 1) (Some "ann")) (caller "10.0.0.1") sample_board)) = 200 /\
    coll st1 "vote" = (coll sample_board "vote" ++ [d])%list /\
    d !! "idea_id" = Some (VStr (oid_str 1)) /\
    d !! "voter" = Some (VStr "ann") /\
    (forall name, name <> "vote" -> coll st1 name = coll sample_board name) /\
    add_vote example_runtime 1700000002000 (vote_by (oid_str 1) (Some "ann"))
      (caller "10.0.0.1") st1 = (HTTPException 409 "Already voted", st1) /\
    status (fst (add_vote example_runtime 1700000002000
                   (vote_by (oid_str 1) (Some "ann")) (caller "10.0.0.1") st1)) = 409.
Proof.
  apply (add_vote_twice example_runtime 1700000001000 1700000002000
           (vote_by (oid_str 1) (Some "ann")) (caller "10.0.0.1") sample_board "ann").
  - vm_compute. reflexivity.
  - reflexivity.
  - discriminate.
  - vm_compute. reflexivity.
Defined.

(** C1 fails as stated: the empty text is a voter a request can supply, the
    handler then falls back on the caller's address, and that address has
    already voted; the first call with the pair is answered 409. *)
Example add_vote_empty_voter_conflict :
  resolves sample_board (oid_str 1) = true /\
  VoteCreate.voter (vote_by (oid_str 1) (Some "")) = Some "" /\
  vote_recorded sample_board (oid_str 1) "" = false /\
  add_vote example_runtime 1700000001000 (vote_by (oid_str 1) (Some ""))
    (caller "10.0.0.1") sample_board
  = (HTTPException 409 "Already voted", sample_board) /\
  status (fst (add_vote example_runtime 1700000001000 (vote_by (oid_str 1) (Some ""))
                 (caller "10.0.0.1") sample_board)) <> 200.
Proof. vm_compute. repeat split; discriminate. Qed.

(** C6 (as amended): for every well-formed idea id, a text of 24
    hexadecimal digits, that does not resolve to an idea on the board, POST
    /api/comments and POST /api/votes both return 404 and leave the store as
    it was. *)
Theorem unknown_idea_not_found rt now pc pv req st i :
  is_Some (ObjectId i) -> resolves st i = false ->
  CommentCreate.idea_id pc = i -> VoteCreate.idea_id pv = i ->
  add_comment rt now pc st = (HTTPException 404 "Idea not found", st) /\
  status (fst (add_comment rt now pc st)) = 404 /\
  add_vote rt now pv req st = (HTTPException 404 "Idea not found", st) /\
  status (fst (add_vote rt now pv req st)) = 404.
Proof.
  intros [o Ho] Hr Hc Hv.
  assert (add_comment rt now pc st = (HTTPException 404 "Idea not found", st)) as E1.
  { rewrite (add_comment_run rt now pc st o) by congruence.
    by rewrite Hc, Hr. }
  assert (add_vote rt now pv req st = (HTTPException 404 "Idea not found", st)) as E2.
  { rewrite (add_vote_run rt now pv req st o) by congruence.
    by rewrite Hv, Hr. }
  rewrite E1, E2. by repeat split.
Qed.

Example unknown_idea_not_found_witness :
  add_comment example_runtime 1700000001000 (comment_on (oid_str 7)) sample_board
  = (HTTPException 404 "Idea not found", sample_board) /\
  status (fst (add_comment example_runtime 1700000001000 (comment_on (oid_str 7))
                 sample_board)) = 404 /\
  add_vote example_runtime 1700000001000 (vote_by (oid_str 7) (Some "ann"))
    (caller "10.0.0.1") sample_board
  = (HTTPException 404 "Idea not found", sample_board) /\
  status (fst (add_vote example_runtime 1700000001000 (vote_by (oid_str 7) (Some "ann"))
                 (caller "10.0.0.1") sample_board)) = 404.
Proof.
  apply (unknown_idea_not_found example_runtime 1700000001000
           (comment_on (oid_str 7)) (vote_by (oid_str 7) (Some "ann"))
           (caller "10.0.0.1") sample_board (oid_str 7)).
  - vm_compute. eauto.
  - vm_compute. reflexivity.
  - reflexivity.
  - reflexivity.
Defined.

(** An id that is not an ObjectId text makes [ObjectId(...)] raise; nothing
    catches it. *)
Lemma malformed_idea_id rt now pc pv req st :
  ObjectId (CommentCreate.idea_id pc) = None ->
  ObjectId (VoteCreate.idea_id pv) = None ->
  add_comment rt now pc st = (Raise InvalidId, st) /\
  add_vote rt now pv req st = (Raise InvalidId, st).
Proof.
  intros Hc Hv. unfold add_comment, add_vote, bind, to_ObjectId.
  by rewrite Hc, Hv.
Qed.

(** C6 fails as stated: "nonexistent" resolves to no idea, and both calls
    end in an uncaught InvalidId, status 500, not in 404. *)
Example unknown_idea_malformed_id :
  resolves sample_board "nonexistent" = false /\
  add_comment example_runtime 1700000001000 (comment_on "nonexistent") sample_board
  = (Raise InvalidId, sample_board) /\
  add_vote example_runtime 1700000001000 (vote_by "nonexistent" (Some "ann"))
    (caller "10.0.0.1") sample_board
  = (Raise InvalidId, sample_board) /\
  status (fst (add_comment example_runtime 1700000001000 (comment_on "nonexistent")
                 sample_board)) <> 404 /\
  status (fst (add_vote example_runtime 1700000001000 (vote_by "nonexistent" (Some "ann"))
                 (caller "10.0.0.1") sample_board)) <> 404.
Proof. vm_compute. repeat split; discriminate. Qed.

(** C7 (as amended): against an idea on the board, the voter identity is
    the supplied voter when one is supplied and is not the empty text,
    otherwise the caller's address; that identity is the one looked up and
    the one recorded; and when neither gives a non-empty identity the call
    returns 400 and leaves the store as it was. *)
Theorem add_vote_identity rt now p req st :
  resolves st (VoteCreate.idea_id p) = true ->
  (forall v, VoteCreate.voter p = Some v -> v <> "" ->
     voter_identity p req = Some v) /\
  (forall a, VoteCreate.voter p = None \/ VoteCreate.voter p = Some "" ->
     client req = Some a -> voter_identity p req = Some (host a)) /\
  (forall v, voter_identity p req = Some v -> v <> "" ->
     if vote_recorded st (VoteCreate.idea_id p) v
     then add_vote rt now p req st = (HTTPException 409 "Already voted", st)
     else exists body st1 d,
       add_vote rt now p req st = (Ok body, st1) /\
       coll st1 "vote" = (coll st "vote" ++ [d])%list /\
       d !! "idea_id" = Some (VStr (VoteCreate.idea_id p)) /\
       d !! "voter" = Some (VStr v)) /\
  (VoteCreate.voter p = None \/ VoteCreate.voter p = Some "" ->
   client req = None \/ (exists a, client req = Some a /\ host a = "") ->
   add_vote rt now p req st = (HTTPException 400 "Missing voter identity", st) /\
   status (fst (add_vote rt now p req st)) = 400).
Proof.
  intros Hr. destruct (resolves_well_formed _ _ Hr) as [o Ho].
  split; [|split; [|split]].
  - intros v Hv Hne. by apply voter_identity_supplied.
  - intros a Hp Hc. unfold voter_identity. rewrite Hc.
    by destruct Hp as [-> | ->].
  - intros v Hv Hne.
    destruct (vote_recorded st (VoteCreate.idea_id p) v) eqn:Hrec.
    + by apply (add_vote_again rt now p req st v).
    + destruct (add_vote_fresh rt now p req st v Hr Hv Hne Hrec)
        as (body & st1 & d & E & Hc & Hi & Hvo & _).
      by exists body, st1, d.
  - intros Hp Hc.
    assert (add_vote rt now p req st =
            (HTTPException 400 "Missing voter identity", st)) as E.
    { rewrite (add_vote_run rt now p req st o Ho), Hr. simpl negb. cbv iota.
      unfold voter_identity.
      destruct Hc as [-> | (a & -> & Ha)]; destruct Hp as [-> | ->];
        simpl; rewrite ?Ha; reflexivity. }
    by rewrite E.
Qed.

Example add_vote_identity_witness :
  (forall v, VoteCreate.voter (vote_by (oid_str 1) None) = Some v -> v <> "" ->
     voter_identity (vote_by (oid_str 1) None) (caller "10.0.0.9") = Some v) /\
  (forall a, VoteCreate.voter (vote_by (oid_str 1) None) = None \/
             VoteCreate.voter (vote_by (oid_str 1) None) = Some "" ->
     client (caller "10.0.0.9") = Some a ->
     voter_identity (vote_by (oid_str 1) None) (caller "10.0.0.9") = Some (host a)) /\
  (forall v, voter_identity (vote_by (oid_str 1) None) (caller "10.0.0.9") = Some v ->
     v <> "" ->
     if vote_recorded sample_board (VoteCreate.idea_id (vote_by (oid_str 1) None)) v
     then add_vote example_runtime 1700000001000 (vote_by (oid_str 1) None)
            (caller "10.0.0.9") sample_board
          = (HTTPException 409 "Already voted", sample_board)
     else exists body st1 d,
       add_vote example_runtime 1700000001000 (vote_by (oid_str 1) None)
         (caller "10.0.0.9") sample_board = (Ok body, st1) /\
       coll st1 "vote" = (coll sample_board "vote" ++ [d])%list /\
       d !! "idea_id" = Some (VStr (VoteCreate.idea_id (vote_by (oid_str 1) None))) /\
       d !! "voter" = Some (VStr v)) /\
  (VoteCreate.voter (vote_by (oid_str 1) None) = None \/
   VoteCreate.voter (vote_by (oid_str 1) None) = Some "" ->
   client (caller "10.0.0.9") = None \/
   (exists a, client (caller "10.0.0.9") = Some a /\ host a = "") ->
   add_vote example_runtime 1700000001000 (vote_by (oid_str 1) None)
     (caller "10.0.0.9") sample_board
   = (HTTPException 400 "Missing voter identity", sample_board) /\
   status (fst (add_vote example_runtime 1700000001000 (vote_by (oid_str 1) None)
                  (caller "10.0.0.9") sample_board)) = 400).
Proof.
  apply (add_vote_identity example_runtime 1700000001000
           (vote_by (oid_str 1) None) (caller "10.0.0.9") sample_board).
  vm_compute. reflexivity.
Defined.

(** C7 fails as stated: a supplied voter that is the empty text is passed
    over, and the vote is recorded under the caller's address. *)
Example add_vote_empty_voter_address :
  VoteCreate.voter (vote_by (oid_str 1) (Some "")) = Some "" /\
  voter_identity (vote_by (oid_str 1) (Some "")) (caller "10.0.0.9") = Some "10.0.0.9" /\
  status (fst (add_vote example_runtime 1700000001000 (vote_by (oid_str 1) (Some ""))
                 (caller "10.0.0.9") sample_board)) = 200 /\
  map (fun d : doc => d !! "voter")
    (coll (snd (add_vote example_runtime 1700000001000 (vote_by (oid_str 1) (Some ""))
                  (caller "10.0.0.9") sample_board)) "vote")
  = [Some (VStr "10.0.0.1"); Some (VStr "10.0.0.9")].
Proof. vm_compute. repeat split. Qed.

(** ** The listing *)

Lemma since_dated start (d : doc) t :
  d !! "created_at" = Some (VDate t) -> since start d = (start <=? t)%Z.
Proof. intros H. unfold since. by rewrite H. Qed.

Lemma get_time_filter_window now p (d : doc) :
  matches (get_time_filter now p) d = in_period now (Some p) d.
Proof.
  unfold get_time_filter, in_period, timedelta_days.
  destruct (String.eqb p "week"); [apply matches_singleton|].
  destruct (String.eqb p "month"); [apply matches_singleton|].
  apply matches_empty.
Qed.

Lemma get_time_filter_truthy now p :
  dict_truthy (get_time_filter now p) = String.eqb p "week" || String.eqb p "month".
Proof.
  unfold get_time_filter.
  destruct (String.eqb p "week").
  { eapply dict_truthy_lookup. apply lookup_singleton_eq. }
  destruct (String.eqb p "month").
  { eapply dict_truthy_lookup. apply lookup_singleton_eq. }
  apply dict_truthy_empty.
Qed.

Lemma get_time_filter_idea_id now p : get_time_filter now p !! "idea_id" = None.
Proof.
  unfold get_time_filter.
  destruct (String.eqb p "week"); [by rewrite lookup_singleton_ne|].
  destruct (String.eqb p "month"); [by rewrite lookup_singleton_ne|].
  apply lookup_empty.
Qed.

Lemma matches_update (q : query) k c (d : doc) :
  q !! k = None ->
  matches (dict_update {[ k := c ]} q) d = cond_holds c (d !! k) && matches q d.
Proof.
  intros Hk. unfold dict_update.
  rewrite (map_union_comm q) by by apply map_disjoint_singleton_r.
  rewrite <- insert_union_singleton_l. by apply matches_insert.
Qed.

(** The filter of either count of the listing: the idea, and the window. *)
Lemma listing_filter now period v (d : doc) :
  matches (if dict_truthy (list_time_filter now period)
           then dict_update {[ "idea_id" := CEq v ]} (list_time_filter now period)
           else {[ "idea_id" := CEq v ]}) d
  = field_eq "idea_id" v d && in_period now period d.
Proof.
  unfold list_time_filter. destruct period as [p|].
  - destruct (String.eqb p "week" || String.eqb p "month") eqn:E.
    + rewrite get_time_filter_truthy, E.
      rewrite matches_update by apply get_time_filter_idea_id.
      by rewrite get_time_filter_window.
    + rewrite dict_truthy_empty, matches_singleton.
      apply orb_false_iff in E as [E1 E2]. unfold in_period. rewrite E1, E2.
      unfold field_eq. by rewrite andb_true_r.
  - rewrite dict_truthy_empty, matches_singleton. unfold field_eq, in_period.
    by rewrite andb_true_r.
Qed.

Lemma enrich_entry rt now period st idea :
  enrich rt (list_time_filter now period) st idea = entry_of rt now period st idea.
Proof.
  unfold enrich, entry_of, votes_of, comments_of, count, count_documents.
  fold (listed_id rt idea).
  by rewrite !(List.filter_ext _ _ (listing_filter now period (listed_id rt idea))).
Qed.

Lemma list_ideas_run rt now period sort st :
  list_ideas rt now period sort st =
  (Ok (sort_desc (key_gt (if String.eqb sort "comments" then "comments" else "votes"))
         (map (entry_of rt now period st) (coll st "idea"))), st).
Proof.
  unfold list_ideas, bind, get_documents, get_store.
  rewrite (map_ext _ _ (enrich_entry rt now period st)).
  by destruct (String.eqb sort "comments").
Qed.

Lemma entry_comments rt now period st idea :
  entry_of rt now period st idea !! "comments"
  = Some (VInt (Z.of_nat (comments_of rt now period st idea))).
Proof. unfold entry_of. by rewrite lookup_insert_eq. Qed.

Lemma entry_votes rt now period st idea :
  entry_of rt now period st idea !! "votes"
  = Some (VInt (Z.of_nat (votes_of rt now period st idea))).
Proof. unfold entry_of. rewrite lookup_insert_ne by done. by rewrite lookup_insert_eq. Qed.

Lemma entry_other rt now period st idea k :
  k <> "votes" -> k <> "comments" ->
  entry_of rt now period st idea !! k = serialized rt idea !! k.
Proof. intros H1 H2. unfold entry_of. by rewrite !lookup_insert_ne. Qed.

(** ** The detail view *)

Lemma get_idea_run rt i st :
  resolves st i = true ->
  exists d,
    get_idea rt i st =
    (Ok (<["votes" := VInt (Z.of_nat (count (field_eq "idea_id" (VStr i)) (coll st "vote")))]>
         (<["comments_list" :=
              VList (map VDict (map (serialized rt)
                (sort_created_desc
                   (List.filter (field_eq "idea_id" (VStr i)) (coll st "comment")))))]>
         (serialized rt d))), st).
Proof.
  intros Hr. destruct (resolves_well_formed _ _ Hr) as [o Ho].
  pose proof (resolves_found st i o Ho) as Hf. rewrite Hr in Hf.
  unfold get_idea, bind, to_ObjectId, get_store. rewrite Ho. simpl.
  destruct (find_one _ (coll st "idea")) as [d|]; [|done].
  simpl in Hf. rewrite Hf. simpl. exists d.
  unfold find, count_documents, count. by rewrite !filter_singleton.
Qed.

(** C2: for every idea on the board, GET /api/ideas/{id} returns a body
    whose [votes] is the number of all vote records of that idea, whatever
    their age, and whose [comments_list] holds the comment records of that
    idea, as many as there are, newest first: of any two of them that carry
    a creation time, the one listed first was not created before the
    other. *)
Theorem get_idea_counts rt i st :
  resolves st i = true ->
  exists body comments,
    get_idea rt i st = (Ok body, st) /\
    body !! "votes"
      = Some (VInt (Z.of_nat (count (field_eq "idea_id" (VStr i)) (coll st "vote")))) /\
    body !! "comments_list" = Some (VList (map VDict (map (serialized rt) comments))) /\
    length (map VDict (map (serialized rt) comments))
      = count (field_eq "idea_id" (VStr i)) (coll st "comment") /\
    Permutation comments (List.filter (field_eq "idea_id" (VStr i)) (coll st "comment")) /\
    StronglySorted not_older comments /\
    StronglySorted
      (fun d e : doc =>
         forall t u, d !! "created_at" = Some (VDate t) ->
                     e !! "created_at" = Some (VDate u) -> (u <= t)%Z)
      comments.
Proof.
  intros Hr. destruct (get_idea_run rt i st Hr) as [d E].
  eexists _, _. split; [exact E|].
  split; [by rewrite lookup_insert_eq|].
  split; [rewrite lookup_insert_ne by done; by rewrite lookup_insert_eq|].
  split; [|split; [|split]].
  - rewrite !length_map. unfold sort_created_desc. by rewrite sort_desc_length.
  - apply sort_desc_perm.
  - apply sort_created_sorted.
  - eapply StronglySorted_weaken; [|apply sort_created_sorted].
    intros x y Hxy t u Hx Hy. exact (not_older_dated x y t u Hx Hy Hxy).
Qed.

Example get_idea_counts_witness :
  exists body comments,
    get_idea example_runtime (oid_str 1) busy_board = (Ok body, busy_board) /\
    body !! "votes"
      = Some (VInt (Z.of_nat (count (field_eq "idea_id" (VStr (oid_str 1)))
                                (coll busy_board "vote")))) /\
    body !! "comments_list"
      = Some (VList (map VDict (map (serialized example_runtime) comments))) /\
    length (map VDict (map (serialized example_runtime) comments))
      = count (field_eq "idea_id" (VStr (oid_str 1))) (coll busy_board "comment") /\
    Permutation comments
      (List.filter (field_eq "idea_id" (VStr (oid_str 1))) (coll busy_board "comment")) /\
    StronglySorted not_older comments /\
    StronglySorted
      (fun d e : doc =>
         forall t u, d !! "created_at" = Some (VDate t) ->
                     e !! "created_at" = Some (VDate u) -> (u <= t)%Z)
      comments.
Proof.
  apply (get_idea_counts example_runtime (oid_str 1) busy_board).
  vm_compute. reflexivity.
Defined.

(** On that board the three comments of the first idea, stored as mid, new,
    old, come back as new, mid, old. *)
Example get_idea_newest_first :
  match fst (get_idea example_runtime (oid_str 1) busy_board) with
  | Ok body =>
      match body !! "comments_list" with
      | Some (VList cl) => map content_of cl
      | _ => []
      end
  | _ => []
  end
  = [Some (VStr "new"); Some (VStr "mid"); Some (VStr "old")].
Proof. vm_compute. reflexivity. Qed.

(** C3: for every store, the list GET /api/ideas returns with
    sort=comments does not increase in the comment count of its entries,
    and with the default sort, votes, it does not increase in their vote
    count; either way the sort is stable: the entries of equal count keep
    the order the ideas have in the store. *)
Theorem list_ideas_sorted rt now period st :
  (exists body,
     list_ideas rt now period "comments" st = (Ok body, st) /\
     Permutation body (map (entry_of rt now period st) (coll st "idea")) /\
     StronglySorted (fun x y => (get_int "comments" y <= get_int "comments" x)%Z) body /\
     forall n,
       List.filter (fun x => (get_int "comments" x =? n)%Z) body =
       List.filter (fun x => (get_int "comments" x =? n)%Z)
         (map (entry_of rt now period st) (coll st "idea"))) /\
  (exists body,
     list_ideas rt now period "votes" st = (Ok body, st) /\
     Permutation body (map (entry_of rt now period st) (coll st "idea")) /\
     StronglySorted (fun x y => (get_int "votes" y <= get_int "votes" x)%Z) body /\
     forall n,
       List.filter (fun x => (get_int "votes" x =? n)%Z) body =
       List.filter (fun x => (get_int "votes" x =? n)%Z)
         (map (entry_of rt now period st) (coll st "idea"))) /\
  (forall idea,
     get_int "comments" (entry_of rt now period st idea)
       = Z.of_nat (comments_of rt now period st idea) /\
     get_int "votes" (entry_of rt now period st idea)
       = Z.of_nat (votes_of rt now period st idea)).
Proof.
  split; [|split].
  - eexists. split; [apply list_ideas_run|]. simpl String.eqb. cbv iota.
    split; [apply sort_desc_perm|].
    split; [apply sort_by_key_sorted|]. intros n. apply sort_by_key_stable.
  - eexists. split; [apply list_ideas_run|]. simpl String.eqb. cbv iota.
    split; [apply sort_desc_perm|].
    split; [apply sort_by_key_sorted|]. intros n. apply sort_by_key_stable.
  - intros idea. unfold get_int. by rewrite entry_comments, entry_votes.
Qed.

(** C4: [get_time_filter] maps [week] to the restriction "created at
    now - 7 days or later", [month] to now - 30 days, and every other
    period to no restriction; in GET /api/ideas the vote count and the
    comment count of every idea are taken under the same window, that of
    the period; GET /api/ideas/{id} counts every record of the idea, with
    no window. *)
Theorem time_filter_use rt now :
  get_time_filter now "week" = {[ "created_at" := CGte (VDate (now - 7 * 86400000)) ]} /\
  get_time_filter now "month" = {[ "created_at" := CGte (VDate (now - 30 * 86400000)) ]} /\
  (forall p, p <> "week" -> p <> "month" -> get_time_filter now p = ∅) /\
  (forall start (d : doc) t, d !! "created_at" = Some (VDate t) ->
     matches {[ "created_at" := CGte (VDate start) ]} d = (start <=? t)%Z) /\
  (forall (d : doc), matches ∅ d = true) /\
  (forall p d, matches (get_time_filter now p) d = in_period now (Some p) d) /\
  (forall period sort st,
     exists body,
       list_ideas rt now period sort st = (Ok body, st) /\
       Permutation body (map (entry_of rt now period st) (coll st "idea")) /\
       forall idea,
         entry_of rt now period st idea !! "votes"
           = Some (VInt (Z.of_nat (count
               (fun d => field_eq "idea_id" (listed_id rt idea) d && in_period now period d)
               (coll st "vote")))) /\
         entry_of rt now period st idea !! "comments"
           = Some (VInt (Z.of_nat (count
               (fun d => field_eq "idea_id" (listed_id rt idea) d && in_period now period d)
               (coll st "comment"))))) /\
  (forall i st, resolves st i = true ->
     exists body cl,
       get_idea rt i st = (Ok body, st) /\
       body !! "votes"
         = Some (VInt (Z.of_nat (count (field_eq "idea_id" (VStr i)) (coll st "vote")))) /\
       body !! "comments_list" = Some (VList cl) /\
       length cl = count (field_eq "idea_id" (VStr i)) (coll st "comment")).
Proof.
  split; [reflexivity|]. split; [reflexivity|].
  split.
  { intros p H1 H2. unfold get_time_filter.
    apply String.eqb_neq in H1, H2. by rewrite H1, H2. }
  split.
  { intros start d t H. rewrite matches_singleton. by rewrite H. }
  split; [apply matches_empty|].
  split; [apply get_time_filter_window|].
  split.
  - intros period sort st. eexists. split; [apply list_ideas_run|].
    split; [apply sort_desc_perm|].
    intros idea. by rewrite entry_votes, entry_comments.
  - intros i st Hr. destruct (get_idea_run rt i st Hr) as [d E].
    eexists _, _. split; [exact E|].
    split; [by rewrite lookup_insert_eq|].
    split; [rewrite lookup_insert_ne by done; by rewrite lookup_insert_eq|].
    rewrite !length_map. unfold sort_created_desc. by rewrite sort_desc_length.
Qed.

Example time_filter_use_witness :
  exists body cl,
    get_idea example_runtime (oid_str 1) sample_board = (Ok body, sample_board) /\
    body !! "votes"
      = Some (VInt (Z.of_nat (count (field_eq "idea_id" (VStr (oid_str 1)))
                                (coll sample_board "vote")))) /\
    body !! "comments_list" = Some (VList cl) /\
    length cl = count (field_eq "idea_id" (VStr (oid_str 1))) (coll sample_board "comment").
Proof.
  apply (time_filter_use example_runtime 1700000001000).
  vm_compute. reflexivity.
Defined.

(** C10: for every value of [period] and of [sort], GET /api/ideas answers
    200 with exactly one entry per stored idea; the period decides only the
    two counts of an entry, every other field is that of the serialised
    idea; and every sort value other than [comments] gives the listing
    sorted by votes: the [votes] field of an entry is the vote count of its
    idea, and of any two entries the one listed first has at least as many
    votes as the other. *)
Theorem list_ideas_total rt now period sort st :
  exists body,
    list_ideas rt now period sort st = (Ok body, st) /\
    status (fst (list_ideas rt now period sort st)) = 200 /\
    length body = length (coll st "idea") /\
    Permutation body (map (entry_of rt now period st) (coll st "idea")) /\
    (forall idea k, k <> "votes" -> k <> "comments" ->
       entry_of rt now period st idea !! k = serialized rt idea !! k) /\
    (forall idea,
       entry_of rt now period st idea !! "votes"
         = Some (VInt (Z.of_nat (votes_of rt now period st idea))) /\
       get_int "votes" (entry_of rt now period st idea)
         = Z.of_nat (votes_of rt now period st idea)) /\
    (sort <> "comments" ->
       list_ideas rt now period sort st = list_ideas rt now period "votes" st /\
       StronglySorted (fun x y => (get_int "votes" y <= get_int "votes" x)%Z) body /\
       StronglySorted
         (fun x y : doc =>
            forall n m, x !! "votes" = Some (VInt n) ->
                        y !! "votes" = Some (VInt m) -> (m <= n)%Z)
         body).
Proof.
  eexists. split; [apply list_ideas_run|].
  split; [by rewrite list_ideas_run|].
  split; [by rewrite sort_desc_length, length_map|].
  split; [apply sort_desc_perm|].
  split; [intros idea k; apply entry_other|].
  split.
  { intros idea. split; [apply entry_votes|].
    unfold get_int. by rewrite entry_votes. }
  intros Hs. apply String.eqb_neq in Hs. rewrite Hs.
  split; [by rewrite !list_ideas_run, Hs|].
  split; [apply sort_by_key_sorted|].
  eapply StronglySorted_weaken; [|apply (sort_by_key_sorted "votes")].
  intros x y Hxy n m Hx Hy. unfold get_int in Hxy. by rewrite Hx, Hy in Hxy.
Qed.

Example list_ideas_total_witness :
  exists body,
    list_ideas example_runtime 1700000005000 (Some "fortnight") "newest" busy_board
      = (Ok body, busy_board) /\
    list_ideas example_runtime 1700000005000 (Some "fortnight") "newest" busy_board
      = list_ideas example_runtime 1700000005000 (Some "fortnight") "votes" busy_board /\
    StronglySorted
      (fun x y : doc =>
         forall n m, x !! "votes" = Some (VInt n) ->
                     y !! "votes" = Some (VInt m) -> (m <= n)%Z)
      body.
Proof.
  destruct (list_ideas_total example_runtime 1700000005000 (Some "fortnight") "newest"
              busy_board) as (body & E & _ & _ & _ & _ & _ & H).
  exists body. split; [exact E|].
  destruct H as (H1 & _ & H2); [discriminate|]. by split.
Defined.

(** On that board, where the idea without votes is stored first, a sort
    value that is neither [votes] nor [comments] lists the idea with two
    votes first. *)
Example list_ideas_other_sort :
  match fst (list_ideas example_runtime 1700000005000 None "newest" busy_board) with
  | Ok body => map (fun x : doc => (x !! "title", x !! "votes")) body
  | _ => []
  end
  = [(Some (VStr "Second"), Some (VInt 2)); (Some (VStr "First"), Some (VInt 0))].
Proof. vm_compute. reflexivity. Qed.

(** ** Creating an idea *)

Lemma dump_link p :
  IdeaCreate.model_dump p !! "link" = Some (opt_str (IdeaCreate.link p)).
Proof.
  unfold IdeaCreate.model_dump. rewrite !lookup_insert_ne by done.
  by rewrite lookup_insert_eq.
Qed.

Lemma normalize_link_stored p l :
  IdeaCreate.link p = Some l ->
  normalize_link (IdeaCreate.model_dump p) !! "link"
  = Some (VStr (if str_truthy l && negb (has_scheme l) then "https://" +:+ l else l)).
Proof.
  intros Hl. unfold normalize_link. rewrite dump_link, Hl. simpl.
  fold (has_scheme l).
  destruct (str_truthy l); simpl; [|by rewrite dump_link, Hl].
  destruct (has_scheme l); simpl; [by rewrite dump_link, Hl|].
  by rewrite lookup_insert_eq.
Qed.

(** C5 (as amended): for every POST /api/ideas payload with a link that is
    not the empty text, the stored link is the link with [https://] put in
    front, and so begins with [https://], when the link starts with neither
    [http://] nor [https://], and is the link unchanged when it starts with
    one of them; an empty link is stored as it is. *)
Theorem create_idea_link rt now p st l :
  IdeaCreate.link p = Some l ->
  exists body st1 d,
    create_idea rt now p st = (Ok body, st1) /\
    coll st1 "idea" = (coll st "idea" ++ [d])%list /\
    (l <> "" -> has_scheme l = false ->
       d !! "link" = Some (VStr ("https://" +:+ l)) /\
       startswith ("https://" +:+ l) "https://" = true) /\
    (has_scheme l = true -> d !! "link" = Some (VStr l)) /\
    (l = "" -> d !! "link" = Some (VStr "")).
Proof.
  intros Hl. unfold create_idea.
  destruct (read_back rt now "idea" (normalize_link (IdeaCreate.model_dump p)) st)
    as (d' & _ & ->).
  eexists _, _, _. split; [reflexivity|].
  split; [rewrite coll_create; by rewrite decide_True|].
  rewrite stamp_other by done. rewrite (normalize_link_stored p l Hl).
  split; [|split].
  - intros Hne Hs. rewrite str_truthy_nonempty, Hs by done.
    split; [done|]. unfold startswith. simpl. by destruct l.
  - intros Hs. rewrite Hs. by rewrite andb_false_r.
  - by intros ->.
Qed.

Example create_idea_link_witness :
  exists body st1 d,
    create_idea example_runtime 1700000001000 (idea_with_link (Some "example.com"))
      sample_board = (Ok body, st1) /\
    coll st1 "idea" = (coll sample_board "idea" ++ [d])%list /\
    ("example.com" <> "" -> has_scheme "example.com" = false ->
       d !! "link" = Some (VStr ("https://" +:+ "example.com")) /\
       startswith ("https://" +:+ "example.com") "https://" = true) /\
    (has_scheme "example.com" = true -> d !! "link" = Some (VStr "example.com")) /\
    ("example.com" = "" -> d !! "link" = Some (VStr "")).
Proof.
  apply (create_idea_link example_runtime 1700000001000
           (idea_with_link (Some "example.com")) sample_board "example.com").
  reflexivity.
Defined.

(** C5 fails as stated: a link that is present but empty lacks a scheme,
    and is stored as the empty text, which does not begin with
    [https://]. *)
Example create_idea_empty_link :
  IdeaCreate.link (idea_with_link (Some "")) = Some "" /\
  has_scheme "" = false /\
  map (fun d : doc => d !! "link")
    (coll (snd (create_idea example_runtime 1700000001000 (idea_with_link (Some ""))
                  sample_board)) "idea")
  = [None; Some (VStr "")] /\
  startswith "" "https://" = false.
Proof. vm_compute. repeat split. Qed.

(** ** serialize_doc on the caller's object *)

(** C9 (as amended): [serialize_doc] works in place: it returns the very
    object it was handed, and after the call that object holds [id], the
    text of the former [_id], holds no [_id], holds [created_at] and
    [updated_at] as ISO-8601 text where they were datetimes, and holds
    every other field as before; no other object is touched. *)
Theorem serialize_doc_in_place rt r (h : heap) (d : doc) :
  h !! r = Some d ->
  exists d',
    serialize_doc rt r h = (r, <[r := d']> h) /\
    d' !! "id" = Some (VStr (py_str rt (default VNone (d !! "_id")))) /\
    d' !! "_id" = None /\
    d' !! "created_at" = iso_value rt (d !! "created_at") /\
    d' !! "updated_at" = iso_value rt (d !! "updated_at") /\
    (forall k, k <> "id" -> k <> "_id" -> k <> "created_at" -> k <> "updated_at" ->
       d' !! k = d !! k) /\
    (forall r', r' <> r -> snd (serialize_doc rt r h) !! r' = h !! r').
Proof.
  intros Hd. exists (serialized rt d). rewrite serialize_doc_alter.
  split.
  { f_equal. apply map_eq. intros r'. rewrite lookup_alter, lookup_insert.
    case_decide; [subst r'; by rewrite Hd|done]. }
  split; [apply serialized_id|]. split; [apply serialized_no__id|].
  split; [apply serialized_created|]. split; [apply serialized_updated|].
  split; [intros k; apply serialized_other|].
  intros r' Hne. simpl. by rewrite lookup_alter_ne.
Qed.

Example serialize_doc_in_place_witness :
  exists d',
    serialize_doc example_runtime 1 sample_heap = (1%positive, <[1%positive := d']> sample_heap) /\
    d' !! "id" = Some (VStr (py_str example_runtime
                               (default VNone ((<["_id" := VOid 255]> (<["title" := VStr "Idea"]> ∅) : doc) !! "_id")))) /\
    d' !! "_id" = None /\
    d' !! "created_at"
      = iso_value example_runtime ((<["_id" := VOid 255]> (<["title" := VStr "Idea"]> ∅) : doc) !! "created_at") /\
    d' !! "updated_at"
      = iso_value example_runtime ((<["_id" := VOid 255]> (<["title" := VStr "Idea"]> ∅) : doc) !! "updated_at") /\
    (forall k, k <> "id" -> k <> "_id" -> k <> "created_at" -> k <> "updated_at" ->
       d' !! k = (<["_id" := VOid 255]> (<["title" := VStr "Idea"]> ∅) : doc) !! k) /\
    (forall r', r' <> 1%positive ->
       snd (serialize_doc example_runtime 1 sample_heap) !! r' = sample_heap !! r').
Proof.
  apply (serialize_doc_in_place example_runtime 1 sample_heap).
  reflexivity.
Defined.

(** C9 fails as stated: after the call the caller's record has lost [_id]
    and gained [id]. *)
Example serialize_doc_mutates :
  (sample_heap !! 1%positive) ≫= (fun d => d !! "_id") = Some (VOid 255) /\
  (snd (serialize_doc example_runtime 1 sample_heap) !! 1%positive) ≫= (fun d => d !! "_id") = None /\
  (snd (serialize_doc example_runtime 1 sample_heap) !! 1%positive) ≫= (fun d => d !! "id")
    = Some (VStr "0000000000000000000000ff") /\
  snd (serialize_doc example_runtime 1 sample_heap) !! 1%positive <> sample_heap !! 1%positive.
Proof.
  split; [reflexivity|]. split; [reflexivity|]. split; [reflexivity|].
  intros H. apply (f_equal (fun o : option doc => o ≫= (fun d => d !! "_id"))) in H.
  vm_compute in H. discriminate.
Qed.

(** ** Seeding *)

Lemma bind_ok {A B} (m : M A) (k : A -> M B) st a st' :
  m st = (Ok a, st') -> bind m k st = k a st'.
Proof. intros H. unfold bind. by rewrite H. Qed.

Lemma bind_create {B} now name data (k : string -> M B) st :
  bind (create_document now name data) k st
  = k (oid_str (new_oid st)) (written now name data st).
Proof. reflexivity. Qed.

Lemma bind_list_get {B} (l : list string) i x (k : string -> M B) st :
  l !! i = Some x -> bind (list_get l i) k st = k x st.
Proof. intros H. unfold bind, list_get. by rewrite H. Qed.

Lemma new_oid_written now name data st :
  new_oid (written now name data st) = next_id (new_oid st).
Proof. reflexivity. Qed.

Lemma coll_written now name data st name' :
  coll (written now name data st) name' =
  if decide (name = name')
  then (coll st name ++ [stamp now (new_oid st) data])%list
  else coll st name'.
Proof. apply coll_create. Qed.

Lemma coll_append_all name rows st name' :
  coll (append_all name rows st) name' =
  if decide (name = name')
  then (coll st name ++ stamped rows (new_oid st))%list
  else coll st name'.
Proof.
  revert st. induction rows as [|r rows IH]; intros st; simpl.
  - case_decide; [subst; by rewrite app_nil_r|done].
  - rewrite IH, new_oid_written, !coll_written.
    case_decide; [|done]. subst name'. rewrite decide_True by done.
    by rewrite <- app_assoc.
Qed.

Lemma length_stamped rows o : length (stamped rows o) = length rows.
Proof. revert o. induction rows as [|r rows IH]; intros o; simpl; [done|]. by rewrite IH. Qed.

Lemma field_eq_stamp k v now o (d : doc) :
  k <> "_id" -> k <> "created_at" ->
  field_eq k v (stamp now o d) = field_eq k v d.
Proof. intros H1 H2. unfold field_eq. by rewrite stamp_other. Qed.

Lemma count_stamped k v rows o :
  k <> "_id" -> k <> "created_at" ->
  count (field_eq k v) (stamped rows o)
  = length (List.filter (fun r : Z * doc => field_eq k v (snd r)) rows).
Proof.
  intros H1 H2. unfold count. revert o.
  induction rows as [|r rows IH]; intros o; simpl; [done|].
  rewrite field_eq_stamp by done.
  destruct (field_eq k v (snd r)); simpl; by rewrite IH.
Qed.

Lemma vote_loop clock base (ids : list string) j id n i st :
  ids !! j = Some id ->
  for_range_from i n
    (fun i =>
       let* x := list_get ids j in
       let* _ := create_document (clock (base + i)%nat) "vote" (vote_doc x (user_ i)) in
       ret tt) st
  = (Ok tt, append_all "vote" (vote_rows clock base id i n) st).
Proof.
  intros Hj. revert i st. induction n as [|n IH]; intros i st; simpl; [done|].
  erewrite bind_ok; [apply IH|].
  erewrite bind_list_get by exact Hj. by rewrite bind_create.
Qed.

Lemma count_vote_rows clock base id i n (s : string) :
  length (List.filter (fun r : Z * doc => field_eq "idea_id" (VStr s) (snd r))
            (vote_rows clock base id i n))
  = if String.eqb s id then n else 0%nat.
Proof.
  unfold vote_rows. revert i. induction n as [|n IH]; intros i.
  - by destruct (String.eqb s id).
  - cbn [seq map List.filter snd]. specialize (IH (S i)).
    unfold field_eq at 1. rewrite vote_doc_idea. cbn [cond_holds scalar_eqb].
    destruct (String.eqb s id); cbn [length]; by rewrite IH.
Qed.

Lemma next_id_lt o : (next_id o < oid_bound)%N.
Proof. unfold next_id. apply N.mod_lt. unfold oid_bound. lia. Qed.

Lemma next_id_neq o : (o < oid_bound)%N -> next_id o <> o.
Proof.
  intros Ho. unfold next_id.
  destruct (decide (N.succ o < oid_bound)%N) as [H|H].
  - rewrite N.mod_small by done. lia.
  - assert (N.succ o = oid_bound) as -> by lia.
    rewrite N.Div0.mod_same. unfold oid_bound in *. lia.
Qed.

Lemma next_next_id_neq o : (o < oid_bound)%N -> next_id (next_id o) <> o.
Proof.
  intros Ho. unfold next_id.
  destruct (decide (N.succ o < oid_bound)%N) as [H|H].
  - rewrite (N.mod_small (N.succ o)) by done.
    destruct (decide (N.succ (N.succ o) < oid_bound)%N) as [H'|H'].
    + rewrite N.mod_small by done. lia.
    + assert (N.succ (N.succ o) = oid_bound) as -> by lia.
      rewrite N.Div0.mod_same. unfold oid_bound in *. lia.
  - assert (N.succ o = oid_bound) as -> by lia.
    rewrite N.Div0.mod_same. change (N.succ 0 mod oid_bound)%N with 1%N.
    unfold oid_bound in *. lia.
Qed.

Lemma oid_str_neq a b :
  (a < oid_bound)%N -> (b < oid_bound)%N -> a <> b ->
  String.eqb (oid_str a) (oid_str b) = false.
Proof.
  intros Ha Hb Hne. apply String.eqb_neq. intros E.
  by apply Hne, oid_str_inj.
Qed.

Lemma seed_guard clock st :
  coll st "idea" <> [] -> ensure_seed_data clock st = (Ok tt, st).
Proof.
  intros H. unfold ensure_seed_data. unfold bind at 1, get_store at 1.
  assert ((0 <? count_documents ∅ (coll st "idea"))%nat = true) as ->; [|done].
  unfold count_documents. destruct (coll st "idea") as [|d l]; [done|].
  cbn [List.filter]. by rewrite matches_empty.
Qed.

Lemma seed_ideas_run clock st :
  seed_insert_ideas clock 0 seed_ideas [] st =
  (Ok [oid_str (new_oid st); oid_str (next_id (new_oid st));
       oid_str (next_id (next_id (new_oid st)))],
   append_all "idea" (idea_rows clock) st).
Proof.
  unfold seed_ideas, idea_rows. cbn [seed_insert_ideas].
  rewrite !bind_create. by rewrite !new_oid_written.
Qed.

(** The store a first start-up leaves. *)
Lemma seed_run clock st :
  coll st "idea" = [] ->
  let o0 := new_oid st in
  let o1 := next_id o0 in
  let o2 := next_id o1 in
  ensure_seed_data clock st =
  (Ok tt,
   append_all "vote" (vote_rows clock 14 (oid_str o2) 0 8)
     (append_all "vote" (vote_rows clock 11 (oid_str o1) 0 3)
        (append_all "vote" (vote_rows clock 6 (oid_str o0) 0 5)
           (append_all "comment" (comment_rows clock (oid_str o0) (oid_str o1))
              (append_all "idea" (idea_rows clock) st))))).
Proof.
  intros H o0 o1 o2. unfold ensure_seed_data.
  unfold bind at 1, get_store at 1. rewrite H.
  change (count_documents ∅ []) with 0%nat. cbv beta iota.
  change (0 <? 0)%nat with false. cbv iota.
  erewrite bind_ok by apply seed_ideas_run.
  fold o0. fold o1. fold o2. cbv beta iota.
  do 3 (erewrite bind_list_get by reflexivity; rewrite bind_create).
  unfold for_range.
  erewrite bind_ok; [|by apply (vote_loop clock 6 _ 0%nat (oid_str o0))].
  erewrite bind_ok; [|by apply (vote_loop clock 11 _ 1%nat (oid_str o1))].
  by rewrite (vote_loop clock 14 _ 2%nat (oid_str o2)).
Qed.

Lemma count_app (p : doc -> bool) (a b : list doc) :
  count p (a ++ b)%list = (count p a + count p b)%nat.
Proof. unfold count. by rewrite List.filter_app, length_app. Qed.

Lemma field_eq_seed_comment s i a c :
  field_eq "idea_id" (VStr s) (seed_comment i a c) = String.eqb s i.
Proof. unfold field_eq, seed_comment. by rewrite lookup_insert_eq. Qed.

(** C8: a start-up against an empty idea collection writes exactly three
    ideas, exactly three comments, two on the first idea and one on the
    second, and exactly sixteen votes, five, three and eight on the three
    ideas; a start-up on the store it leaves, and on every store whose idea
    collection is not empty, writes nothing. *)
Theorem seed_startup clock st :
  (coll st "idea" = [] ->
   exists st' o0 o1 o2 d0 d1 d2 cs vs,
     ensure_seed_data clock st = (Ok tt, st') /\
     coll st' "idea" = [d0; d1; d2] /\
     d0 !! "_id" = Some (VOid o0) /\
     d1 !! "_id" = Some (VOid o1) /\
     d2 !! "_id" = Some (VOid o2) /\
     map (fun d : doc => d !! "title") [d0; d1; d2]
       = [Some (VStr "AI-Powered Code Reviewer"); Some (VStr "Fitness Buddy Chat");
          Some (VStr "Travel Plan Optimizer")] /\
     oid_str o0 <> oid_str o1 /\ oid_str o1 <> oid_str o2 /\ oid_str o0 <> oid_str o2 /\
     coll st' "comment" = (coll st "comment" ++ cs)%list /\
     length cs = 3%nat /\
     count (field_eq "idea_id" (VStr (oid_str o0))) cs = 2%nat /\
     count (field_eq "idea_id" (VStr (oid_str o1))) cs = 1%nat /\
     count (field_eq "idea_id" (VStr (oid_str o2))) cs = 0%nat /\
     coll st' "vote" = (coll st "vote" ++ vs)%list /\
     length vs = 16%nat /\
     count (field_eq "idea_id" (VStr (oid_str o0))) vs = 5%nat /\
     count (field_eq "idea_id" (VStr (oid_str o1))) vs = 3%nat /\
     count (field_eq "idea_id" (VStr (oid_str o2))) vs = 8%nat /\
     forall clock', ensure_seed_data clock' st' = (Ok tt, st')) /\
  (coll st "idea" <> [] -> ensure_seed_data clock st = (Ok tt, st)).
Proof.
  split; [|apply seed_guard].
  intros H. pose proof (seed_run clock st H) as E. cbv zeta in E.
  set (o0 := new_oid st) in *. set (o1 := next_id o0) in *.
  set (o2 := next_id o1) in *.
  assert (o0 < oid_bound)%N as B0 by apply new_oid_lt.
  assert (o1 < oid_bound)%N as B1 by apply next_id_lt.
  assert (o2 < oid_bound)%N as B2 by apply next_id_lt.
  assert (String.eqb (oid_str o0) (oid_str o1) = false) as N01.
  { apply oid_str_neq; try done. intros E'. by apply (next_id_neq o0). }
  assert (String.eqb (oid_str o1) (oid_str o2) = false) as N12.
  { apply oid_str_neq; try done. intros E'. by apply (next_id_neq o1). }
  assert (String.eqb (oid_str o0) (oid_str o2) = false) as N02.
  { apply oid_str_neq; try done. intros E'. by apply (next_next_id_neq o0). }
  assert (String.eqb (oid_str o1) (oid_str o0) = false) as N10
    by (rewrite String.eqb_sym; exact N01).
  assert (String.eqb (oid_str o2) (oid_str o1) = false) as N21
    by (rewrite String.eqb_sym; exact N12).
  assert (String.eqb (oid_str o2) (oid_str o0) = false) as N20
    by (rewrite String.eqb_sym; exact N02).
  set (s1 := append_all "idea" (idea_rows clock) st) in *.
  set (s2 := append_all "comment" (comment_rows clock (oid_str o0) (oid_str o1)) s1) in *.
  set (s3 := append_all "vote" (vote_rows clock 6 (oid_str o0) 0 5) s2) in *.
  set (s4 := append_all "vote" (vote_rows clock 11 (oid_str o1) 0 3) s3) in *.
  set (s5 := append_all "vote" (vote_rows clock 14 (oid_str o2) 0 8) s4) in *.
  assert (coll s5 "idea" = stamped (idea_rows clock) o0) as Hi.
  { unfold s5, s4, s3, s2, s1. rewrite !coll_append_all.
    rewrite !decide_False by done. rewrite decide_True by done. by rewrite H. }
  assert (coll s5 "comment" =
          (coll st "comment" ++
           stamped (comment_rows clock (oid_str o0) (oid_str o1)) (new_oid s1))%list) as Hc.
  { unfold s5, s4, s3, s2. rewrite !coll_append_all.
    rewrite !decide_False by done. rewrite decide_True by done.
    f_equal. unfold s1. rewrite coll_append_all. by rewrite decide_False. }
  assert (coll s5 "vote" =
          (coll st "vote" ++
           (stamped (vote_rows clock 6 (oid_str o0) 0 5) (new_oid s2) ++
            stamped (vote_rows clock 11 (oid_str o1) 0 3) (new_oid s3) ++
            stamped (vote_rows clock 14 (oid_str o2) 0 8) (new_oid s4)))%list) as Hv.
  { unfold s5, s4, s3. rewrite !coll_append_all. rewrite !decide_True by done.
    rewrite <- !app_assoc. f_equal.
    unfold s2, s1. rewrite !coll_append_all. by rewrite !decide_False. }
  exists s5, o0, o1, o2.
  eexists _, _, _, _, _. split; [exact E|].
  split; [exact Hi|].
  split; [apply stamp_id|]. split; [apply stamp_id|]. split; [apply stamp_id|].
  split.
  { cbn [map]. rewrite !stamp_other by done. reflexivity. }
  split; [exact (proj1 (String.eqb_neq _ _) N01)|].
  split; [exact (proj1 (String.eqb_neq _ _) N12)|].
  split; [exact (proj1 (String.eqb_neq _ _) N02)|].
  split; [exact Hc|]. split; [by rewrite length_stamped|].
  split.
  { rewrite count_stamped by done. cbn [comment_rows List.filter snd].
    by rewrite !field_eq_seed_comment, String.eqb_refl, N01. }
  split.
  { rewrite count_stamped by done. cbn [comment_rows List.filter snd].
    by rewrite !field_eq_seed_comment, String.eqb_refl, N10. }
  split.
  { rewrite count_stamped by done. cbn [comment_rows List.filter snd].
    by rewrite !field_eq_seed_comment, N20, N21. }
  split; [exact Hv|].
  split.
  { rewrite !length_app, !length_stamped. unfold vote_rows.
    by rewrite !length_map, !length_seq. }
  split.
  { rewrite !count_app, !count_stamped, !count_vote_rows by done.
    by rewrite String.eqb_refl, N01, N02. }
  split.
  { rewrite !count_app, !count_stamped, !count_vote_rows by done.
    by rewrite String.eqb_refl, N10, N12. }
  split.
  { rewrite !count_app, !count_stamped, !count_vote_rows by done.
    by rewrite String.eqb_refl, N20, N21. }
  intros clock'. apply seed_guard. by rewrite Hi.
Qed.

Example seed_startup_witness :
  exists st',
    ensure_seed_data sample_clock empty_store = (Ok tt, st') /\
    length (coll st' "idea") = 3%nat /\
    length (coll st' "comment") = 3%nat /\
    length (coll st' "vote") = 16%nat /\
    ensure_seed_data sample_clock st' = (Ok tt, st').
Proof.
  destruct (proj1 (seed_startup sample_clock empty_store) eq_refl)
    as (st' & o0 & o1 & o2 & d0 & d1 & d2 & cs & vs & E & Hi & _ & _ & _ & _
        & _ & _ & _ & Hc & Lc & _ & _ & _ & Hv & Lv & _ & _ & _ & Hg).
  exists st'. split; [exact E|].
  split; [by rewrite Hi|].
  split; [rewrite Hc; exact Lc|].
  split; [rewrite Hv; exact Lv|].
  apply Hg.
Defined.

(** ** The diagnostic endpoint *)

Lemma char_count_take_chars n s : char_count (take_chars n s) <= n.
Proof.
  revert n. induction s as [|c s IH]; intros n; simpl; [lia|].
  destruct (is_continuation c) eqn:E; simpl.
  - rewrite E. apply IH.
  - destruct n as [|n]; simpl; [lia|]. rewrite E. specialize (IH n). lia.
Qed.

Lemma take_chars_prefix n s : String.prefix (take_chars n s) s = true.
Proof.
  revert n. induction s as [|c s IH]; intros n; simpl; [done|].
  destruct (is_continuation c).
  - simpl. destruct (ascii_dec c c); [apply IH|done].
  - destruct n as [|n]; [done|]. simpl.
    destruct (ascii_dec c c); [apply IH|done].
Qed.

Lemma take_chars_all n s : char_count s <= n -> take_chars n s = s.
Proof.
  revert n. induction s as [|c s IH]; intros n; simpl; [done|].
  destruct (is_continuation c).
  - intros H. by rewrite IH.
  - destruct n as [|n]; [lia|]. intros H. rewrite IH; [done|lia].
Qed.

Lemma getenv_truthy_set env k :
  getenv_truthy env k = true <-> exists s, env !! k = Some s /\ s <> "".
Proof.
  unfold getenv_truthy. destruct (env !! k) as [s|]; split.
  - intros H. exists s. split; [done|]. by destruct s.
  - intros (s' & [= <-] & H). by apply str_truthy_nonempty.
  - done.
  - by intros (s' & ? & _).
Qed.

Lemma test_database_collections_lookup db env :
  test_database db env !! "collections" = Some (VList (map VStr (listed_names db))).
Proof.
  unfold test_database, listed_names. rewrite !lookup_insert_ne by done.
  destruct db as [[a [msg|names]]|]; simpl; try destruct a;
    rewrite ?lookup_insert_ne by done; by rewrite lookup_insert_eq.
Qed.

(** X1: the diagnostic never reports more than ten collection names: it
    reports the first ten of the names the store lists, all of them when
    there are at most ten, and none when the store is missing or fails. *)
Theorem test_database_collections db env :
  exists l,
    test_database db env !! "collections" = Some (VList (map VStr l)) /\
    length l <= 10 /\
    (forall d names,
       db = Some d -> collection_names d = inr names ->
       (forall msg, db_name d <> AttributeRaises msg) ->
       l = take 10 names /\ l `prefix_of` names /\
       (length names <= 10 -> l = names)) /\
    (db = None -> l = []) /\
    (forall d msg, db = Some d -> collection_names d = inl msg -> l = []).
Proof.
  exists (listed_names db). split; [apply test_database_collections_lookup|].
  split; [|split; [|split]].
  - unfold listed_names. destruct db as [[a [msg|names]]|]; simpl;
      try destruct a; simpl; rewrite ?length_take; lia.
  - intros d names -> Hc Hn. unfold listed_names. rewrite Hc.
    destruct (db_name d) as [| |m]; [| |by destruct (Hn m)];
      (split; [done|]); (split; [apply prefix_take|apply take_ge]).
  - by intros ->.
  - intros d msg -> Hc. unfold listed_names. rewrite Hc. by destruct (db_name d).
Qed.

Example test_database_collections_witness :
  test_database (Some sample_database) ∅ !! "collections"
  = Some (VList (map VStr (take 10 ["a"; "b"; "c"; "d"; "e"; "f"; "g"; "h"; "i"; "j"; "k"; "l"]))).
Proof.
  destruct (test_database_collections (Some sample_database) ∅)
    as (l & E & _ & H & _).
  destruct (H sample_database _ eq_refl eq_refl) as [-> _]; [done|exact E].
Defined.

(** X2: what the diagnostic says of the configuration comes from the
    environment alone: [database_url] and [database_name] read "Set" exactly
    when the variable is set to a text that is not empty, whatever the
    database handle is; the name of the database is never reported. *)
Theorem test_database_environment db env :
  test_database db env !! "database_url"
    = Some (set_or_not (getenv_truthy env "DATABASE_URL")) /\
  test_database db env !! "database_name"
    = Some (set_or_not (getenv_truthy env "DATABASE_NAME")) /\
  (test_database db env !! "database_url" = Some (VStr "✅ Set")
     <-> exists s, env !! "DATABASE_URL" = Some s /\ s <> "") /\
  (test_database db env !! "database_name" = Some (VStr "✅ Set")
     <-> exists s, env !! "DATABASE_NAME" = Some s /\ s <> "").
Proof.
  assert (test_database db env !! "database_url"
          = Some (set_or_not (getenv_truthy env "DATABASE_URL"))) as E1.
  { unfold test_database. rewrite lookup_insert_ne by done. by rewrite lookup_insert_eq. }
  assert (test_database db env !! "database_name"
          = Some (set_or_not (getenv_truthy env "DATABASE_NAME"))) as E2.
  { unfold test_database. by rewrite lookup_insert_eq. }
  split; [done|]. split; [done|]. rewrite E1, E2, <- !getenv_truthy_set.
  unfold set_or_not. split.
  - destruct (getenv_truthy env "DATABASE_URL"); split; congruence.
  - destruct (getenv_truthy env "DATABASE_NAME"); split; congruence.
Qed.

(** X3: when listing the collections fails, the diagnostic still answers:
    it reports the store as connected, and quotes the error cut to its first
    fifty characters (the whole text when it has at most fifty). *)
Theorem test_database_error_text d env msg :
  (forall m, db_name d <> AttributeRaises m) ->
  collection_names d = inl msg ->
  exists t,
    test_database (Some d) env !! "database"
      = Some (VStr ("⚠️  Connected but Error: " +:+ t)) /\
    t = take_chars 50 msg /\
    char_count t <= 50 /\
    String.prefix t msg = true /\
    (char_count msg <= 50 -> t = msg) /\
    test_database (Some d) env !! "connection_status" = Some (VStr "Connected").
Proof.
  intros Hn Hc. exists (take_chars 50 msg).
  assert (test_database (Some d) env !! "database"
          = Some (VStr ("⚠️  Connected but Error: " +:+ take_chars 50 msg)) /\
          test_database (Some d) env !! "connection_status" = Some (VStr "Connected"))
    as [E1 E2].
  { unfold test_database. rewrite !lookup_insert_ne by done. rewrite Hc.
    destruct (db_name d) as [|s|m] eqn:Ea; [| |by destruct (Hn m)].
    - split; [by rewrite lookup_insert_eq|].
      rewrite lookup_insert_ne by done. by rewrite lookup_insert_eq.
    - split; [by rewrite lookup_insert_eq|].
      rewrite lookup_insert_ne by done. by rewrite lookup_insert_eq. }
  split; [exact E1|]. split; [done|]. split; [apply char_count_take_chars|].
  split; [apply take_chars_prefix|]. split; [apply take_chars_all|exact E2].
Qed.

Example test_database_error_text_witness :
  exists t,
    test_database (Some failing_database) ∅ !! "database"
      = Some (VStr ("⚠️  Connected but Error: " +:+ t)) /\
    t = take_chars 50
          "connection refused: the server at localhost:27017 actively refused it" /\
    char_count t <= 50 /\
    String.prefix t
      "connection refused: the server at localhost:27017 actively refused it" = true /\
    (char_count "connection refused: the server at localhost:27017 actively refused it"
       <= 50 -> t = "connection refused: the server at localhost:27017 actively refused it") /\
    test_database (Some failing_database) ∅ !! "connection_status"
      = Some (VStr "Connected").
Proof.
  apply (test_database_error_text failing_database ∅).
  - intros m. discriminate.
  - reflexivity.
Defined.

(** ** Outcomes of the handlers *)

Lemma get_idea_unknown rt i st o :
  ObjectId i = Some o -> resolves st i = false ->
  get_idea rt i st = (HTTPException 404 "Idea not found", st).
Proof.
  intros Ho Hr. pose proof (resolves_found st i o Ho) as Hf. rewrite Hr in Hf.
  unfold get_idea, bind, to_ObjectId, get_store. rewrite Ho. simpl.
  destruct (find_one _ (coll st "idea")) as [d|]; [|done].
  simpl in Hf. by rewrite Hf.
Qed.

Lemma get_idea_malformed rt i st :
  ObjectId i = None -> get_idea rt i st = (Raise InvalidId, st).
Proof. intros Ho. unfold get_idea, bind, to_ObjectId. by rewrite Ho. Qed.

(** X4: GET /api/ideas/{id} answers 200 exactly when the id resolves to an
    idea on the board, 404 exactly when the id is a well-formed ObjectId text
    that resolves to none, and fails with status 500 exactly when the id is
    not an ObjectId text; it never changes the store. *)
Theorem get_idea_status rt i st :
  snd (get_idea rt i st) = st /\
  (status (fst (get_idea rt i st)) = 200 <-> resolves st i = true) /\
  (status (fst (get_idea rt i st)) = 404
     <-> is_Some (ObjectId i) /\ resolves st i = false) /\
  (status (fst (get_idea rt i st)) = 500 <-> ObjectId i = None).
Proof.
  destruct (ObjectId i) as [o|] eqn:Ho.
  - destruct (resolves st i) eqn:Hr.
    + destruct (get_idea_run rt i st Hr) as [d ->]. simpl.
      repeat split; try done; try (intros [[? ?] ?]; done); eauto.
    + rewrite (get_idea_unknown rt i st o Ho Hr). simpl.
      repeat split; try done; try (intros [[? ?] ?]; done); eauto.
  - rewrite (get_idea_malformed rt i st Ho). simpl.
    assert (resolves st i = false) as -> by (unfold resolves; by rewrite Ho).
    repeat split; try done; try (intros [[? ?] ?]; done); eauto.
Qed.

Lemma model_dump_comment_idea p :
  CommentCreate.model_dump p !! "idea_id" = Some (VStr (CommentCreate.idea_id p)).
Proof. unfold CommentCreate.model_dump. by rewrite lookup_insert_eq. Qed.

Lemma add_comment_ok rt now p st :
  resolves st (CommentCreate.idea_id p) = true ->
  exists body,
    add_comment rt now p st
    = (Ok body, written now "comment" (CommentCreate.model_dump p) st).
Proof.
  intros Hr. destruct (resolves_well_formed _ _ Hr) as [o Ho].
  rewrite (add_comment_run rt now p st o Ho), Hr. simpl negb. cbv iota.
  destruct (read_back rt now "comment" (CommentCreate.model_dump p) st)
    as (d' & _ & ->). eauto.
Qed.

(** X5: a comment posted on an idea of the board is answered 200 and is
    appended to the comment collection as one record with the idea id, the
    author (null when none is given) and the content of the request and the
    time of the call; the idea then has one comment more, and the ideas and
    the votes are as they were. *)
Theorem add_comment_effect rt now p st :
  resolves st (CommentCreate.idea_id p) = true ->
  exists body st1 d,
    add_comment rt now p st = (Ok body, st1) /\
    coll st1 "comment" = (coll st "comment" ++ [d])%list /\
    d !! "idea_id" = Some (VStr (CommentCreate.idea_id p)) /\
    d !! "author" = Some (opt_str (CommentCreate.author p)) /\
    d !! "content" = Some (VStr (CommentCreate.content p)) /\
    d !! "created_at" = Some (VDate now) /\
    count (field_eq "idea_id" (VStr (CommentCreate.idea_id p))) (coll st1 "comment")
      = S (count (field_eq "idea_id" (VStr (CommentCreate.idea_id p))) (coll st "comment")) /\
    (forall name, name <> "comment" -> coll st1 name = coll st name).
Proof.
  intros Hr. destruct (add_comment_ok rt now p st Hr) as [body E].
  eexists _, _, _. split; [exact E|].
  assert (coll (written now "comment" (CommentCreate.model_dump p) st) "comment"
          = (coll st "comment" ++
             [stamp now (new_oid st) (CommentCreate.model_dump p)])%list) as Hc.
  { rewrite coll_written. by rewrite decide_True. }
  split; [exact Hc|].
  split; [rewrite stamp_other by done; apply model_dump_comment_idea|].
  split.
  { rewrite stamp_other by done. unfold CommentCreate.model_dump.
    rewrite lookup_insert_ne by done. by rewrite lookup_insert_eq. }
  split.
  { rewrite stamp_other by done. unfold CommentCreate.model_dump.
    rewrite !lookup_insert_ne by done. by rewrite lookup_insert_eq. }
  split; [apply stamp_created|].
  split.
  { rewrite Hc, count_app. unfold count at 2. cbn [List.filter].
    rewrite field_eq_stamp by done.
    rewrite (field_eq_str _ _ _ (model_dump_comment_idea p)). simpl. lia. }
  intros name Hn. rewrite coll_written. by rewrite decide_False.
Qed.

Example add_comment_effect_witness :
  exists body st1 d,
    add_comment example_runtime 1700000001000 (comment_on (oid_str 1)) sample_board
      = (Ok body, st1) /\
    coll st1 "comment" = (coll sample_board "comment" ++ [d])%list /\
    d !! "idea_id" = Some (VStr (CommentCreate.idea_id (comment_on (oid_str 1)))) /\
    d !! "author" = Some (opt_str (CommentCreate.author (comment_on (oid_str 1)))) /\
    d !! "content" = Some (VStr (CommentCreate.content (comment_on (oid_str 1)))) /\
    d !! "created_at" = Some (VDate 1700000001000) /\
    count (field_eq "idea_id" (VStr (CommentCreate.idea_id (comment_on (oid_str 1)))))
      (coll st1 "comment")
    = S (count (field_eq "idea_id" (VStr (CommentCreate.idea_id (comment_on (oid_str 1)))))
           (coll sample_board "comment")) /\
    (forall name, name <> "comment" -> coll st1 name = coll sample_board name).
Proof.
  apply (add_comment_effect example_runtime 1700000001000 (comment_on (oid_str 1))
           sample_board).
  vm_compute. reflexivity.
Defined.

(** The store a vote request leaves: the one it met, or that one with the
    vote written. *)
Lemma add_vote_store rt now p req st :
  (status (fst (add_vote rt now p req st)) <> 200 /\
   snd (add_vote rt now p req st) = st) \/
  (exists body v,
     voter_identity p req = Some v /\ v <> "" /\
     resolves st (VoteCreate.idea_id p) = true /\
     vote_recorded st (VoteCreate.idea_id p) v = false /\
     add_vote rt now p req st
     = (Ok body, written now "vote" (vote_doc (VoteCreate.idea_id p) v) st)).
Proof.
  destruct (ObjectId (VoteCreate.idea_id p)) as [o|] eqn:Ho.
  2:{ left. unfold add_vote, bind, to_ObjectId. by rewrite Ho. }
  rewrite (add_vote_run rt now p req st o Ho).
  destruct (resolves st (VoteCreate.idea_id p)) eqn:Hr; [|by left].
  simpl negb. cbv iota.
  destruct (voter_identity p req) as [v|] eqn:Hv; [|by left].
  destruct (str_truthy v) eqn:Ht; [|by left]. simpl negb. cbv iota.
  destruct (vote_recorded st (VoteCreate.idea_id p) v) eqn:Hrec; [by left|].
  right. destruct (read_back rt now "vote" (vote_doc (VoteCreate.idea_id p) v) st)
    as (d' & _ & ->).
  exists (serialized rt d'), v. repeat split; try done. by intros ->.
Qed.

Lemma add_comment_store rt now p st :
  (status (fst (add_comment rt now p st)) <> 200 /\
   snd (add_comment rt now p st) = st) \/
  (exists body,
     resolves st (CommentCreate.idea_id p) = true /\
     add_comment rt now p st
     = (Ok body, written now "comment" (CommentCreate.model_dump p) st)).
Proof.
  destruct (ObjectId (CommentCreate.idea_id p)) as [o|] eqn:Ho.
  2:{ left. unfold add_comment, bind, to_ObjectId. by rewrite Ho. }
  destruct (resolves st (CommentCreate.idea_id p)) eqn:Hr.
  - right. destruct (add_comment_ok rt now p st Hr) as [body E]. eauto.
  - left. rewrite (add_comment_run rt now p st o Ho), Hr. by simpl.
Qed.

Lemma create_idea_ok rt now p st :
  exists body,
    create_idea rt now p st
    = (Ok body, written now "idea" (normalize_link (IdeaCreate.model_dump p)) st).
Proof.
  unfold create_idea.
  destruct (read_back rt now "idea" (normalize_link (IdeaCreate.model_dump p)) st)
    as (d' & _ & ->). eauto.
Qed.

(** ** Records are only ever appended *)

Lemma only_appends_refl st : only_appends st st.
Proof. by intros name. Qed.

Lemma only_appends_trans st1 st2 st3 :
  only_appends st1 st2 -> only_appends st2 st3 -> only_appends st1 st3.
Proof.
  intros H1 H2 name. transitivity (coll st2 name); [apply H1|apply H2].
Qed.

Lemma only_appends_written now name data st :
  only_appends st (written now name data st).
Proof.
  intros name'. rewrite coll_written. case_decide; [subst|done].
  apply prefix_app_r. done.
Qed.

Lemma only_appends_append_all name rows st :
  only_appends st (append_all name rows st).
Proof.
  intros name'. rewrite coll_append_all. case_decide; [subst|done].
  apply prefix_app_r. done.
Qed.

(** X7: no handler deletes or rewrites a stored record: after POST
    /api/ideas, POST /api/comments, POST /api/votes, GET /api/ideas, GET
    /api/ideas/{id} and the start-up seed, every collection begins with
    exactly the records it held before, in the same order. *)
Theorem handlers_only_append rt now clock pi pc pv req period sort i st :
  only_appends st (snd (create_idea rt now pi st)) /\
  only_appends st (snd (add_comment rt now pc st)) /\
  only_appends st (snd (add_vote rt now pv req st)) /\
  only_appends st (snd (list_ideas rt now period sort st)) /\
  only_appends st (snd (get_idea rt i st)) /\
  only_appends st (snd (ensure_seed_data clock st)).
Proof.
  split; [|split; [|split; [|split; [|split]]]].
  - destruct (create_idea_ok rt now pi st) as [body ->].
    apply only_appends_written.
  - destruct (add_comment_store rt now pc st) as [[_ ->]|(body & _ & ->)];
      [apply only_appends_refl|apply only_appends_written].
  - destruct (add_vote_store rt now pv req st)
      as [[_ ->]|(body & v & _ & _ & _ & _ & ->)];
      [apply only_appends_refl|apply only_appends_written].
  - rewrite list_ideas_run. apply only_appends_refl.
  - rewrite (proj1 (get_idea_status rt i st)). apply only_appends_refl.
  - destruct (coll st "idea") as [|d l] eqn:H.
    + rewrite (seed_run clock st H). cbn [snd].
      repeat (eapply only_appends_trans; [|apply only_appends_append_all]).
      apply only_appends_refl.
    + rewrite seed_guard by (rewrite H; done). apply only_appends_refl.
Qed.

(** ** One vote per idea and voter *)

Lemma vote_key_recorded st i v (d : doc) :
  d ∈ coll st "vote" -> vote_key d = (Some (VStr i), Some (VStr v)) ->
  vote_recorded st i v = true.
Proof.
  intros Hin [= Hi Hv]. unfold vote_recorded. apply existsb_exists.
  exists d. split; [by apply list_elem_of_In|].
  by rewrite !field_eq_str.
Qed.

Lemma votes_unique_same st st' :
  coll st' "vote" = coll st "vote" -> votes_unique st -> votes_unique st'.
Proof. unfold votes_unique. by intros ->. Qed.

(** X8: the handlers keep the vote collection free of duplicates: if no two
    vote records are of the same idea and voter, that is still so after POST
    /api/votes, whatever its outcome, and after POST /api/comments and POST
    /api/ideas. *)
Theorem votes_stay_unique rt now pv pc pi req st :
  votes_unique st ->
  votes_unique (snd (add_vote rt now pv req st)) /\
  votes_unique (snd (add_comment rt now pc st)) /\
  votes_unique (snd (create_idea rt now pi st)).
Proof.
  intros Hu. split; [|split].
  - destruct (add_vote_store rt now pv req st)
      as [[_ ->]|(body & v & _ & _ & _ & Hrec & ->)]; [done|].
    cbn [snd]. unfold votes_unique. rewrite coll_written, decide_True by done.
    rewrite map_app. apply NoDup_app. split; [exact Hu|].
    split; [|apply NoDup_singleton].
    intros k Hk Hk'. apply list_elem_of_singleton in Hk'. subst k.
    apply list_elem_of_fmap in Hk as (d & Hd & Hin).
    assert (vote_recorded st (VoteCreate.idea_id pv) v = true) as E; [|congruence].
    apply (vote_key_recorded st _ _ d Hin). rewrite <- Hd.
    unfold vote_key. rewrite !stamp_other by done.
    by rewrite vote_doc_idea, vote_doc_voter.
  - destruct (add_comment_store rt now pc st) as [[_ ->]|(body & _ & ->)]; [done|].
    apply (votes_unique_same st); [|done].
    cbn [snd]. rewrite coll_written. by rewrite decide_False.
  - destruct (create_idea_ok rt now pi st) as [body ->].
    apply (votes_unique_same st); [|done].
    cbn [snd]. rewrite coll_written. by rewrite decide_False.
Qed.

Example votes_stay_unique_witness :
  votes_unique (snd (add_vote example_runtime 1700000001000
                       (vote_by (oid_str 1) (Some "ann")) (caller "10.0.0.1")
                       sample_board)).
Proof.
  apply (votes_stay_unique example_runtime 1700000001000
           (vote_by (oid_str 1) (Some "ann")) (comment_on (oid_str 1))
           (idea_with_link None) (caller "10.0.0.1") sample_board).
  unfold votes_unique. apply NoDup_singleton.
Defined.

(** X9: a vote that is answered 200 shows in the detail view: GET
    /api/ideas/{id} with the id of the request answered 200 before the vote
    and answers 200 after it, with a [votes] count one higher. *)
Theorem vote_shows_in_detail rt now p req st :
  status (fst (add_vote rt now p req st)) = 200 ->
  exists b0 b1 n,
    get_idea rt (VoteCreate.idea_id p) st = (Ok b0, st) /\
    get_idea rt (VoteCreate.idea_id p) (snd (add_vote rt now p req st))
      = (Ok b1, snd (add_vote rt now p req st)) /\
    b0 !! "votes" = Some (VInt (Z.of_nat n)) /\
    b1 !! "votes" = Some (VInt (Z.of_nat (S n))).
Proof.
  intros E.
  destruct (add_vote_store rt now p req st)
    as [[Hs _]|(body' & v & Hv & Hne & Hr & Hrec & E')]; [done|].
  rewrite E'. cbn [snd].
  assert (resolves (written now "vote" (vote_doc (VoteCreate.idea_id p) v) st)
            (VoteCreate.idea_id p) = true) as Hr1.
  { rewrite (resolves_same_ideas st); [done|].
    rewrite coll_written. by rewrite decide_False. }
  destruct (get_idea_run rt _ st Hr) as [d0 E0].
  destruct (get_idea_run rt _ _ Hr1) as [d1 E1].
  eexists _, _, _. split; [exact E0|]. split; [exact E1|].
  split; [by rewrite lookup_insert_eq|].
  rewrite lookup_insert_eq. do 3 f_equal.
  rewrite coll_written, decide_True by done. rewrite count_app.
  unfold count at 2. cbn [List.filter]. rewrite field_eq_stamp by done.
  rewrite (field_eq_str _ _ _ (vote_doc_idea _ _)). simpl. lia.
Qed.

Example vote_shows_in_detail_witness :
  exists b0 b1 n,
    get_idea example_runtime (oid_str 1) sample_board = (Ok b0, sample_board) /\
    get_idea example_runtime (oid_str 1)
      (snd (add_vote example_runtime 1700000001000 (vote_by (oid_str 1) (Some "ann"))
              (caller "10.0.0.1") sample_board))
    = (Ok b1, snd (add_vote example_runtime 1700000001000
                     (vote_by (oid_str 1) (Some "ann")) (caller "10.0.0.1") sample_board)) /\
    b0 !! "votes" = Some (VInt (Z.of_nat n)) /\
    b1 !! "votes" = Some (VInt (Z.of_nat (S n))).
Proof.
  apply (vote_shows_in_detail example_runtime 1700000001000
           (vote_by (oid_str 1) (Some "ann")) (caller "10.0.0.1") sample_board).
  vm_compute. reflexivity.
Defined.

(** ** The listing and the detail view *)

Lemma listed_id_oid rt (idea : doc) o :
  idea !! "_id" = Some (VOid o) -> listed_id rt idea = VStr (oid_str o).
Proof. intros H. unfold listed_id. by rewrite H. Qed.

Lemma idea_with_id_resolves st o idea :
  idea_with_id st o idea -> resolves st (oid_str o) = true.
Proof.
  intros (Hin & Hid & Hb). unfold resolves. rewrite ObjectId_oid_str by done.
  apply existsb_exists. exists idea. split; [by apply list_elem_of_In|].
  unfold field_eq. rewrite Hid. simpl. apply N.eqb_refl.
Qed.

Lemma second_idea_listed : idea_with_id busy_board 2 second_idea.
Proof.
  split; [|split; [apply stamp_id|reflexivity]].
  unfold coll, busy_board. cbn [db]. rewrite lookup_insert_eq.
  apply list_elem_of_further, list_elem_of_here.
Qed.

Lemma hex_idea_listed : idea_with_id hex_board 255 hex_idea.
Proof.
  split; [|split; [apply stamp_id|reflexivity]].
  unfold coll, hex_board. cbn [db]. rewrite lookup_insert_eq.
  apply list_elem_of_here.
Qed.

Lemma count_snoc (p : doc -> bool) l x :
  count p (l ++ [x])%list = (count p l + if p x then 1 else 0)%nat.
Proof. rewrite count_app. unfold count at 2. cbn [List.filter]. by destruct (p x). Qed.

Lemma count_ext (p q : doc -> bool) l :
  (forall d, p d = q d) -> count p l = count q l.
Proof. intros H. unfold count. by rewrite (List.filter_ext _ _ H). Qed.

Lemma entry_in_listing rt now period sort st idea :
  idea ∈ coll st "idea" ->
  exists l,
    list_ideas rt now period sort st = (Ok l, st) /\
    entry_of rt now period st idea ∈ l.
Proof.
  intros Hin. eexists. split; [apply list_ideas_run|].
  rewrite sort_desc_perm. apply list_elem_of_fmap. eauto.
Qed.

Lemma entry_id rt now period st (idea : doc) o :
  idea !! "_id" = Some (VOid o) ->
  entry_of rt now period st idea !! "id" = Some (VStr (oid_str o)).
Proof. intros H. rewrite entry_other by done. by rewrite serialized_id, H. Qed.

(** X10: the listing and the detail view agree: for an idea stored under an
    ObjectId, GET /api/ideas without a period returns an entry with the text
    of that id as [id], and the [votes] and [comments] counts of that entry
    are the [votes] count and the length of [comments_list] that GET
    /api/ideas/{id} returns for that text. *)
Theorem listing_agrees_with_detail rt now sort st o idea :
  idea_with_id st o idea ->
  exists l x body cl,
    list_ideas rt now None sort st = (Ok l, st) /\
    x ∈ l /\
    x !! "id" = Some (VStr (oid_str o)) /\
    get_idea rt (oid_str o) st = (Ok body, st) /\
    x !! "votes" = body !! "votes" /\
    body !! "comments_list" = Some (VList cl) /\
    x !! "comments" = Some (VInt (Z.of_nat (length cl))).
Proof.
  intros Hi. pose proof (idea_with_id_resolves st o idea Hi) as Hr.
  destruct Hi as (Hin & Hid & _).
  destruct (entry_in_listing rt now None sort st idea Hin) as (l & El & Hl).
  destruct (get_idea_run rt _ st Hr) as [d E].
  exists l, (entry_of rt now None st idea). eexists _, _.
  split; [exact El|]. split; [exact Hl|].
  split; [by apply entry_id|]. split; [exact E|].
  rewrite entry_votes, entry_comments. unfold votes_of, comments_of.
  rewrite (listed_id_oid rt idea o Hid).
  split.
  { rewrite lookup_insert_eq. do 3 f_equal. apply count_ext.
    intros d'. cbn [in_period]. by rewrite andb_true_r. }
  split; [rewrite lookup_insert_ne by done; by rewrite lookup_insert_eq|].
  do 3 f_equal. rewrite !length_map. unfold sort_created_desc.
  rewrite sort_desc_length. apply count_ext. intros d'. cbn [in_period].
  by rewrite andb_true_r.
Qed.

Example listing_agrees_with_detail_witness :
  exists l x body cl,
    list_ideas example_runtime 1700000005000 None "votes" busy_board = (Ok l, busy_board) /\
    x ∈ l /\
    x !! "id" = Some (VStr (oid_str 2)) /\
    get_idea example_runtime (oid_str 2) busy_board = (Ok body, busy_board) /\
    x !! "votes" = body !! "votes" /\
    body !! "comments_list" = Some (VList cl) /\
    x !! "comments" = Some (VInt (Z.of_nat (length cl))).
Proof.
  apply (listing_agrees_with_detail example_runtime 1700000005000 "votes" busy_board 2
           second_idea).
  apply second_idea_listed.
Defined.

(** X11: a vote cast under another spelling of the id is accepted but not
    listed: when the id of the request is read by ObjectId as the id of an
    idea (the hexadecimal digits are read without regard to case) but is not
    the text [str] gives for that id, a vote of a voter with no vote on
    record under that spelling is answered 200 and stored under the spelling
    of the request, and the entry of the idea in GET /api/ideas, with its
    vote count, is after the vote what it was before, for every period. *)
Theorem vote_under_other_spelling rt now now' period sort p req st o idea v :
  idea_with_id st o idea ->
  ObjectId (VoteCreate.idea_id p) = Some o ->
  VoteCreate.idea_id p <> oid_str o ->
  VoteCreate.voter p = Some v -> v <> "" ->
  vote_recorded st (VoteCreate.idea_id p) v = false ->
  exists body st1 d l l1 x,
    add_vote rt now p req st = (Ok body, st1) /\
    coll st1 "vote" = (coll st "vote" ++ [d])%list /\
    d !! "idea_id" = Some (VStr (VoteCreate.idea_id p)) /\
    list_ideas rt now' period sort st = (Ok l, st) /\
    list_ideas rt now' period sort st1 = (Ok l1, st1) /\
    x ∈ l /\ x ∈ l1 /\
    x !! "id" = Some (VStr (oid_str o)) /\
    x !! "votes" = Some (VInt (Z.of_nat (votes_of rt now' period st idea))).
Proof.
  intros Hi Ho Hne Hv Hnv Hrec.
  pose proof Hi as (Hin & Hid & Hb).
  assert (resolves st (VoteCreate.idea_id p) = true) as Hr.
  { unfold resolves. rewrite Ho. apply existsb_exists. exists idea.
    split; [by apply list_elem_of_In|]. unfold field_eq. rewrite Hid.
    cbn [cond_holds scalar_eqb]. apply N.eqb_refl. }
  pose proof (voter_identity_supplied p req v Hv Hnv) as Hvi.
  destruct (add_vote_fresh rt now p req st v Hr Hvi Hnv Hrec)
    as (body & st1 & d & E & Hc & Hdi & Hdv & Hoth).
  assert (entry_of rt now' period st1 idea = entry_of rt now' period st idea) as Ee.
  { unfold entry_of, votes_of, comments_of.
    rewrite (Hoth "comment") by done. rewrite Hc, count_snoc.
    rewrite (listed_id_oid rt idea o Hid).
    assert (field_eq "idea_id" (VStr (oid_str o)) d = false) as ->.
    { unfold field_eq. rewrite Hdi. cbn [cond_holds scalar_eqb].
      apply String.eqb_neq. congruence. }
    rewrite andb_false_l. by rewrite Nat.add_0_r. }
  destruct (entry_in_listing rt now' period sort st idea Hin) as (l & El & Hl).
  assert (idea ∈ coll st1 "idea") as Hin1 by (by rewrite (Hoth "idea")).
  destruct (entry_in_listing rt now' period sort st1 idea Hin1) as (l1 & El1 & Hl1).
  rewrite Ee in Hl1.
  exists body, st1, d, l, l1, (entry_of rt now' period st idea).
  repeat (split; [done|]). split; [by apply entry_id|apply entry_votes].
Qed.

Example vote_under_other_spelling_witness :
  ObjectId upper_id = Some 255%N /\
  upper_id <> oid_str 255 /\
  exists body st1 d l l1 x,
    add_vote example_runtime 1700000001000 (vote_by upper_id (Some "ann"))
      (caller "10.0.0.1") hex_board = (Ok body, st1) /\
    coll st1 "vote" = (coll hex_board "vote" ++ [d])%list /\
    d !! "idea_id" = Some (VStr (VoteCreate.idea_id (vote_by upper_id (Some "ann")))) /\
    list_ideas example_runtime 1700000002000 None "votes" hex_board = (Ok l, hex_board) /\
    list_ideas example_runtime 1700000002000 None "votes" st1 = (Ok l1, st1) /\
    x ∈ l /\ x ∈ l1 /\
    x !! "id" = Some (VStr (oid_str 255)) /\
    x !! "votes"
      = Some (VInt (Z.of_nat (votes_of example_runtime 1700000002000 None hex_board
                                hex_idea))).
Proof.
  split; [reflexivity|]. split; [vm_compute; discriminate|].
  apply (vote_under_other_spelling example_runtime 1700000001000 1700000002000 None
           "votes" (vote_by upper_id (Some "ann")) (caller "10.0.0.1") hex_board 255
           hex_idea "ann").
  - apply hex_idea_listed.
  - reflexivity.
  - vm_compute. discriminate.
  - reflexivity.
  - discriminate.
  - vm_compute. reflexivity.
Defined.

(** On that board the vote under the upper-case spelling is answered 200,
    and the idea is listed with no vote before and after it. *)
Example vote_under_upper_case :
  status (fst (add_vote example_runtime 1700000001000 (vote_by upper_id (Some "ann"))
                 (caller "10.0.0.1") hex_board)) = 200 /\
  match fst (list_ideas example_runtime 1700000002000 None "votes"
               (snd (add_vote example_runtime 1700000001000
                       (vote_by upper_id (Some "ann")) (caller "10.0.0.1") hex_board))) with
  | Ok body => map (fun x : doc => (x !! "id", x !! "votes")) body
  | _ => []
  end
  = [(Some (VStr "0000000000000000000000ff"), Some (VInt 0))].
Proof. vm_compute. split; reflexivity. Qed.

(** ** Windows of the listing *)

Lemma scalar_geb_mono w a a' :
  (a' <= a)%Z -> scalar_geb w (VDate a) = true -> scalar_geb w (VDate a') = true.
Proof. destruct w; simpl; try done. lia. Qed.

Lemma since_mono a a' (d : doc) :
  (a' <= a)%Z -> since a d = true -> since a' d = true.
Proof.
  intros Hle. unfold since, cond_holds.
  destruct (d !! "created_at") as [w|]; [|done].
  destruct w; try apply scalar_geb_mono; try done.
  rewrite !existsb_exists. intros (x & Hx & Hg). exists x. split; [done|].
  by apply (scalar_geb_mono x a a').
Qed.

Lemma count_le (p q : doc -> bool) l :
  (forall d, p d = true -> q d = true) -> count p l <= count q l.
Proof.
  intros H. unfold count. induction l as [|x l IH]; simpl; [lia|].
  destruct (p x) eqn:E.
  - rewrite (H x E). simpl. lia.
  - destruct (q x); simpl; lia.
Qed.

Lemma window_counts_nest rt now st idea :
  votes_of rt now (Some "week") st idea <= votes_of rt now (Some "month") st idea /\
  votes_of rt now (Some "month") st idea <= votes_of rt now None st idea /\
  comments_of rt now (Some "week") st idea <= comments_of rt now (Some "month") st idea /\
  comments_of rt now (Some "month") st idea <= comments_of rt now None st idea.
Proof.
  unfold votes_of, comments_of.
  assert (forall d, in_period now (Some "week") d = true ->
                    in_period now (Some "month") d = true) as Hwm.
  { intros d. cbn [in_period String.eqb Ascii.eqb Bool.eqb]. apply since_mono. lia. }
  repeat split; apply count_le; intros d Hd;
    apply andb_true_iff in Hd as [H1 H2]; apply andb_true_iff; split; auto.
Qed.

(** X12: the windows nest: for every stored idea, GET /api/ideas returns an
    entry of that idea under [period=week], under [period=month] and without
    a period, and the [votes] and [comments] counts of the first are at most
    those of the second, which are at most those of the third, which counts
    every vote and comment of the idea; and a period other than [week] and
    [month] gives the very listing that no period gives. *)
Theorem period_windows_nest rt now st :
  (forall sort idea, idea ∈ coll st "idea" ->
     exists lw lm ln xw xm xn vw vm vn cw cm cn,
       list_ideas rt now (Some "week") sort st = (Ok lw, st) /\
       list_ideas rt now (Some "month") sort st = (Ok lm, st) /\
       list_ideas rt now None sort st = (Ok ln, st) /\
       xw ∈ lw /\ xm ∈ lm /\ xn ∈ ln /\
       (forall k, k <> "votes" -> k <> "comments" ->
          xw !! k = serialized rt idea !! k /\
          xm !! k = serialized rt idea !! k /\
          xn !! k = serialized rt idea !! k) /\
       xw !! "votes" = Some (VInt (Z.of_nat vw)) /\
       xm !! "votes" = Some (VInt (Z.of_nat vm)) /\
       xn !! "votes" = Some (VInt (Z.of_nat vn)) /\
       vw <= vm /\ vm <= vn /\
       vn = count (field_eq "idea_id" (listed_id rt idea)) (coll st "vote") /\
       xw !! "comments" = Some (VInt (Z.of_nat cw)) /\
       xm !! "comments" = Some (VInt (Z.of_nat cm)) /\
       xn !! "comments" = Some (VInt (Z.of_nat cn)) /\
       cw <= cm /\ cm <= cn /\
       cn = count (field_eq "idea_id" (listed_id rt idea)) (coll st "comment")) /\
  (forall p sort, p <> "week" -> p <> "month" ->
     list_ideas rt now (Some p) sort st = list_ideas rt now None sort st).
Proof.
  split.
  - intros sort idea Hin.
    destruct (entry_in_listing rt now (Some "week") sort st idea Hin) as (lw & Ew & Hw).
    destruct (entry_in_listing rt now (Some "month") sort st idea Hin) as (lm & Em & Hm).
    destruct (entry_in_listing rt now None sort st idea Hin) as (ln & En & Hn).
    destruct (window_counts_nest rt now st idea) as (V1 & V2 & C1 & C2).
    exists lw, lm, ln.
    exists (entry_of rt now (Some "week") st idea), (entry_of rt now (Some "month") st idea),
      (entry_of rt now None st idea).
    exists (votes_of rt now (Some "week") st idea), (votes_of rt now (Some "month") st idea),
      (votes_of rt now None st idea).
    exists (comments_of rt now (Some "week") st idea),
      (comments_of rt now (Some "month") st idea), (comments_of rt now None st idea).
    do 6 (split; [done|]).
    split; [intros k H1 H2; by rewrite !entry_other|].
    do 3 (split; [apply entry_votes|]). do 2 (split; [done|]).
    split.
    { unfold votes_of. apply count_ext. intros d. cbn [in_period]. apply andb_true_r. }
    do 3 (split; [apply entry_comments|]). do 2 (split; [done|]).
    unfold comments_of. apply count_ext. intros d. cbn [in_period]. apply andb_true_r.
  - intros p sort H1 H2. rewrite !list_ideas_run. do 3 f_equal.
    apply map_ext. intros idea. unfold entry_of, votes_of, comments_of.
    apply String.eqb_neq in H1, H2.
    assert (forall d, in_period now (Some p) d = in_period now None d) as E.
    { intros d. unfold in_period. by rewrite H1, H2. }
    by rewrite !(count_ext _ _ _ (fun d => f_equal (andb _) (E d))).
Qed.

Example period_windows_nest_witness :
  (exists lw lm ln xw xm xn vw vm vn cw cm cn,
     list_ideas example_runtime (1700000003500 + 30 * 86400000) (Some "week") "votes"
       busy_board = (Ok lw, busy_board) /\
     list_ideas example_runtime (1700000003500 + 30 * 86400000) (Some "month") "votes"
       busy_board = (Ok lm, busy_board) /\
     list_ideas example_runtime (1700000003500 + 30 * 86400000) None "votes"
       busy_board = (Ok ln, busy_board) /\
     xw ∈ lw /\ xm ∈ lm /\ xn ∈ ln /\
     (forall k, k <> "votes" -> k <> "comments" ->
        xw !! k = serialized example_runtime second_idea !! k /\
        xm !! k = serialized example_runtime second_idea !! k /\
        xn !! k = serialized example_runtime second_idea !! k) /\
     xw !! "votes" = Some (VInt (Z.of_nat vw)) /\
     xm !! "votes" = Some (VInt (Z.of_nat vm)) /\
     xn !! "votes" = Some (VInt (Z.of_nat vn)) /\
     vw <= vm /\ vm <= vn /\
     vn = count (field_eq "idea_id" (listed_id example_runtime second_idea))
            (coll busy_board "vote") /\
     xw !! "comments" = Some (VInt (Z.of_nat cw)) /\
     xm !! "comments" = Some (VInt (Z.of_nat cm)) /\
     xn !! "comments" = Some (VInt (Z.of_nat cn)) /\
     cw <= cm /\ cm <= cn /\
     cn = count (field_eq "idea_id" (listed_id example_runtime second_idea))
            (coll busy_board "comment")) /\
  list_ideas example_runtime (1700000003500 + 30 * 86400000) (Some "year") "votes" busy_board
  = list_ideas example_runtime (1700000003500 + 30 * 86400000) None "votes" busy_board.
Proof.
  destruct (period_windows_nest example_runtime (1700000003500 + 30 * 86400000) busy_board)
    as [H1 H2].
  split; [|apply H2; discriminate].
  apply (H1 "votes" second_idea). apply second_idea_listed.
Defined.

(** On that board, thirty days and half a second after the last comment but
    one, the second idea shows no vote and no comment within the week, no
    vote and one comment within the month, and two votes and one comment in
    all. *)
Example period_windows_on_board :
  map (fun period =>
         match fst (list_ideas example_runtime (1700000003500 + 30 * 86400000) period
                      "comments" busy_board) with
         | Ok body =>
             map (fun x : doc => (x !! "title", x !! "votes", x !! "comments")) body
         | _ => []
         end)
      [Some "week"; Some "month"; None]
  = [ [(Some (VStr "First"), Some (VInt 0), Some (VInt 0));
       (Some (VStr "Second"), Some (VInt 0), Some (VInt 0))];
      [(Some (VStr "Second"), Some (VInt 0), Some (VInt 1));
       (Some (VStr "First"), Some (VInt 0), Some (VInt 0))];
      [(Some (VStr "First"), Some (VInt 0), Some (VInt 3));
       (Some (VStr "Second"), Some (VInt 2), Some (VInt 1))] ].
Proof. vm_compute. reflexivity. Qed.

(** ** The shape of the listing *)

(** X13: no entry of GET /api/ideas carries the internal [_id]; every entry
    has an [id], and [votes] and [comments] counts that are integers and not
    negative. *)
Theorem list_ideas_entries rt now period sort st :
  exists body,
    list_ideas rt now period sort st = (Ok body, st) /\
    forall x, x ∈ body ->
      x !! "_id" = None /\
      (exists s, x !! "id" = Some (VStr s)) /\
      (exists n, x !! "votes" = Some (VInt n) /\ (0 <= n)%Z) /\
      (exists n, x !! "comments" = Some (VInt n) /\ (0 <= n)%Z).
Proof.
  eexists. split; [apply list_ideas_run|].
  intros x Hx. rewrite sort_desc_perm in Hx.
  apply list_elem_of_fmap in Hx as (idea & -> & _).
  split; [rewrite entry_other by done; apply serialized_no__id|].
  split; [rewrite entry_other by done; rewrite serialized_id; eauto|].
  split; [rewrite entry_votes|rewrite entry_comments];
    eexists; (split; [reflexivity|lia]).
Qed.

(** ** serialize_doc, twice *)

(** X14: [serialize_doc] is not idempotent: it takes [id] from [_id] and
    removes [_id], so a record without [_id] gets the id "None", and a
    second call on a record already serialised replaces its id by "None". *)
Theorem serialize_doc_twice rt r (h : heap) (d : doc) :
  h !! r = Some d ->
  (d !! "_id" = None ->
   snd (serialize_doc rt r h) !! r ≫= (fun d' => d' !! "id") = Some (VStr "None")) /\
  snd (serialize_doc rt r (snd (serialize_doc rt r h))) !! r ≫= (fun d' => d' !! "id")
    = Some (VStr "None").
Proof.
  intros Hd. rewrite !serialize_doc_alter. cbn [snd].
  rewrite alter_alter_eq, !lookup_alter_eq, Hd. cbn [fmap option_fmap option_map mbind option_bind compose].
  split.
  - intros Hid. rewrite serialized_id, Hid. reflexivity.
  - rewrite serialized_id, serialized_no__id. reflexivity.
Qed.

Example serialize_doc_twice_witness :
  snd (serialize_doc example_runtime 1
         (snd (serialize_doc example_runtime 1 sample_heap))) !! 1%positive
    ≫= (fun d' => d' !! "id")
  = Some (VStr "None").
Proof.
  apply (serialize_doc_twice example_runtime 1 sample_heap
           (<["_id" := VOid 255]> (<["title" := VStr "Idea"]> ∅))).
  reflexivity.
Defined.

(** ** Creating an idea and reading it back *)

Lemma find_snoc_fresh {A} (p : A -> bool) (l : list A) (x : A) :
  existsb p l = false -> p x = true -> List.find p (l ++ [x])%list = Some x.
Proof.
  intros Hl Hx. induction l as [|y l IH]; simpl in *; [by rewrite Hx|].
  apply orb_false_iff in Hl as [Hy Hl]. rewrite Hy. by apply IH.
Qed.

Lemma find_one_fresh now name data st :
  id_free st name = true ->
  find_one {[ "_id" := CEq (VOid (new_oid st)) ]}
    (coll (written now name data st) name)
  = Some (stamp now (new_oid st) data).
Proof.
  intros Hf. rewrite coll_written, decide_True by done. rewrite find_one_singleton.
  apply find_snoc_fresh.
  - unfold id_free in Hf. by apply negb_true_iff in Hf.
  - rewrite stamp_id. simpl. apply N.eqb_refl.
Qed.

Lemma normalize_link_other (data : doc) k :
  k <> "link" -> normalize_link data !! k = data !! k.
Proof.
  intros Hk. unfold normalize_link.
  destruct (truthy _); [|done].
  destruct (default VNone (data !! "link")); try done.
  destruct (negb _); [|done]. by rewrite lookup_insert_ne.
Qed.

Lemma create_idea_fresh rt now p st :
  id_free st "idea" = true ->
  create_idea rt now p st
  = (Ok (serialized rt (stamp now (new_oid st)
                          (normalize_link (IdeaCreate.model_dump p)))),
     written now "idea" (normalize_link (IdeaCreate.model_dump p)) st).
Proof.
  intros Hf. unfold create_idea.
  destruct (read_back rt now "idea" (normalize_link (IdeaCreate.model_dump p)) st)
    as (d' & Hd & ->).
  fold (written now "idea" (normalize_link (IdeaCreate.model_dump p)) st) in Hd.
  rewrite find_one_fresh in Hd by done. by injection Hd as <-.
Qed.

(** X15: an idea that is created can be read back: when the identifier the
    store hands out is not taken in the idea collection, POST /api/ideas
    returns the new idea with that identifier as [id], without [_id], with
    the title, description, author and tags of the request and the time of
    the call as ISO-8601 text, and GET /api/ideas/{id} for that [id] then
    answers 200 with the same fields. *)
Theorem create_idea_read_back rt now p st :
  id_free st "idea" = true ->
  exists body st1 b,
    create_idea rt now p st = (Ok body, st1) /\
    body !! "id" = Some (VStr (oid_str (new_oid st))) /\
    body !! "_id" = None /\
    body !! "title" = Some (VStr (IdeaCreate.title p)) /\
    body !! "description" = Some (VStr (IdeaCreate.description p)) /\
    body !! "author" = Some (opt_str (IdeaCreate.author p)) /\
    body !! "tags" = Some (VList (map VStr (IdeaCreate.tags p))) /\
    body !! "created_at" = Some (VStr (isoformat rt now)) /\
    get_idea rt (oid_str (new_oid st)) st1 = (Ok b, st1) /\
    (forall k, k <> "votes" -> k <> "comments_list" -> b !! k = body !! k).
Proof.
  intros Hf. rewrite (create_idea_fresh rt now p st Hf).
  set (data := normalize_link (IdeaCreate.model_dump p)).
  set (st1 := written now "idea" data st).
  assert (find_one {[ "_id" := CEq (VOid (new_oid st)) ]} (coll st1 "idea")
          = Some (stamp now (new_oid st) data)) as Hfind
    by (by apply find_one_fresh).
  assert (get_idea rt (oid_str (new_oid st)) st1 =
    (Ok (<["votes" := VInt (Z.of_nat
            (count_documents {[ "idea_id" := CEq (VStr (oid_str (new_oid st))) ]}
               (coll st1 "vote")))]>
         (<["comments_list" :=
              VList (map VDict (map (serialized rt)
                (sort_created_desc
                   (find {[ "idea_id" := CEq (VStr (oid_str (new_oid st))) ]}
                      (coll st1 "comment")))))]>
         (serialized rt (stamp now (new_oid st) data)))), st1)) as Hget.
  { unfold get_idea, bind, to_ObjectId, get_store.
    rewrite ObjectId_oid_str by apply new_oid_lt. cbn [ret]. rewrite Hfind.
    by rewrite (dict_truthy_lookup _ _ _ (stamp_id now (new_oid st) data)). }
  eexists _, _, _. split; [reflexivity|].
  split; [by rewrite serialized_id, stamp_id|].
  split; [apply serialized_no__id|].
  assert (forall k, k <> "id" -> k <> "_id" -> k <> "created_at" -> k <> "updated_at" ->
            k <> "link" ->
            serialized rt (stamp now (new_oid st) data) !! k
            = IdeaCreate.model_dump p !! k) as Hk.
  { intros k ? ? ? ? ?. rewrite serialized_other, stamp_other by done.
    by apply normalize_link_other. }
  split; [rewrite Hk by done; unfold IdeaCreate.model_dump; by rewrite lookup_insert_eq|].
  split.
  { rewrite Hk by done. unfold IdeaCreate.model_dump.
    rewrite lookup_insert_ne by done. by rewrite lookup_insert_eq. }
  split.
  { rewrite Hk by done. unfold IdeaCreate.model_dump.
    rewrite !lookup_insert_ne by done. by rewrite lookup_insert_eq. }
  split.
  { rewrite Hk by done. unfold IdeaCreate.model_dump.
    rewrite !lookup_insert_ne by done. by rewrite lookup_insert_eq. }
  split; [by rewrite serialized_created, stamp_created|].
  split; [exact Hget|].
  intros k H1 H2. by rewrite !lookup_insert_ne.
Qed.

Example create_idea_read_back_witness :
  exists body st1 b,
    create_idea example_runtime 1700000001000 (idea_with_link None) sample_board
      = (Ok body, st1) /\
    body !! "id" = Some (VStr (oid_str (new_oid sample_board))) /\
    body !! "_id" = None /\
    body !! "title" = Some (VStr (IdeaCreate.title (idea_with_link None))) /\
    body !! "description" = Some (VStr (IdeaCreate.description (idea_with_link None))) /\
    body !! "author" = Some (opt_str (IdeaCreate.author (idea_with_link None))) /\
    body !! "tags" = Some (VList (map VStr (IdeaCreate.tags (idea_with_link None)))) /\
    body !! "created_at" = Some (VStr (isoformat example_runtime 1700000001000)) /\
    get_idea example_runtime (oid_str (new_oid sample_board)) st1 = (Ok b, st1) /\
    (forall k, k <> "votes" -> k <> "comments_list" -> b !! k = body !! k).
Proof.
  apply (create_idea_read_back example_runtime 1700000001000 (idea_with_link None)
           sample_board).
  vm_compute. reflexivity.
Defined.

(** ** The votes of the seed *)

Lemma vote_key_stamp now o (d : doc) : vote_key (stamp now o d) = vote_key d.
Proof. unfold vote_key. by rewrite !stamp_other. Qed.

Lemma vote_keys_stamped clock base id i n o :
  map vote_key (stamped (vote_rows clock base id i n) o)
  = map (fun u => (Some (VStr id), Some (VStr u))) (map user_ (seq i n)).
Proof.
  unfold vote_rows. revert i o. induction n as [|n IH]; intros i o; [done|].
  cbn [seq map stamped fst snd]. rewrite vote_key_stamp, IH.
  unfold vote_key at 1. by rewrite vote_doc_idea, vote_doc_voter.
Qed.

Lemma seed_voters_distinct : NoDup (map user_ (seq 0 8)).
Proof. apply (bool_decide_unpack _). vm_compute. exact I. Qed.

Lemma seed_block_distinct (id : string) n :
  n <= 8 ->
  NoDup (map (fun u => (Some (VStr id), Some (VStr u))) (map user_ (seq 0 n))).
Proof.
  intros Hn. apply NoDup_fmap_2; [by intros u u' [= ->]|].
  assert (seq 0 8 = (seq 0 n ++ seq n (8 - n))%list) as E.
  { rewrite <- seq_app. f_equal. lia. }
  pose proof seed_voters_distinct as H. rewrite E, map_app in H.
  by apply NoDup_app in H as [H _].
Qed.

Lemma seed_blocks_apart (a b : string) (la lb : list string)
    (k : option value * option value) :
  a <> b ->
  k ∈ map (fun u => (Some (VStr a), Some (VStr u))) la ->
  k ∉ map (fun u => (Some (VStr b), Some (VStr u))) lb.
Proof.
  intros Hne Ha Hb.
  apply list_elem_of_fmap in Ha as (u & -> & _).
  apply list_elem_of_fmap in Hb as (u' & [= E _] & _). done.
Qed.

(** X16: after the first start-up on an empty database no two votes are of
    the same idea and voter, so the unique index [startup_event] then asks
    for on (idea_id, voter) meets no duplicate. *)
Theorem seed_votes_unique clock st :
  coll st "idea" = [] -> coll st "vote" = [] ->
  votes_unique (snd (startup_event clock st)).
Proof.
  intros Hi Hv. unfold startup_event. rewrite (seed_run clock st Hi). cbn [snd].
  set (o0 := new_oid st). set (o1 := next_id o0). set (o2 := next_id o1).
  assert (o0 < oid_bound)%N as B0 by apply new_oid_lt.
  assert (o1 < oid_bound)%N as B1 by apply next_id_lt.
  assert (o2 < oid_bound)%N as B2 by apply next_id_lt.
  assert (oid_str o0 <> oid_str o1) as N01.
  { intros E. apply oid_str_inj in E; try done. by apply (next_id_neq o0). }
  assert (oid_str o1 <> oid_str o2) as N12.
  { intros E. apply oid_str_inj in E; try done. by apply (next_id_neq o1). }
  assert (oid_str o0 <> oid_str o2) as N02.
  { intros E. apply oid_str_inj in E; try done. by apply (next_next_id_neq o0). }
  unfold votes_unique. rewrite !coll_append_all.
  rewrite !decide_True, !decide_False by done. rewrite Hv.
  rewrite <- !app_assoc. cbn [app]. rewrite !map_app, !vote_keys_stamped.
  apply NoDup_app. split; [by apply seed_block_distinct; lia|]. split.
  { intros k Hk Hk'. apply elem_of_app in Hk' as [Hk'|Hk'].
    - exact (seed_blocks_apart _ _ _ _ k N01 Hk Hk').
    - exact (seed_blocks_apart _ _ _ _ k N02 Hk Hk'). }
  apply NoDup_app. split; [by apply seed_block_distinct; lia|]. split.
  { intros k Hk Hk'. exact (seed_blocks_apart _ _ _ _ k N12 Hk Hk'). }
  apply seed_block_distinct. lia.
Qed.

Example seed_votes_unique_witness :
  votes_unique (snd (startup_event sample_clock empty_store)).
Proof. apply (seed_votes_unique sample_clock empty_store); reflexivity. Defined.
